(** * agentic-crew runners: a shallow embedding of the CrewAI and Strands adapters

    The two adapters of [agentic_crew.runners] ([crewai_runner.py] and
    [strands_runner.py]) are embedded as Rocq functions over a small model
    of the Python values a crew configuration is made of.  Python
    exceptions are an explicit [result]; the objects a backend SDK
    constructs are recorded, in construction order, in the state that the
    runner's methods thread; the caller's configuration object lives in
    the same state, so that a method that wrote to it would show. *)

From Stdlib Require Import String Ascii List ZArith Lia Bool Arith.
From Stdlib Require Import DecimalString.
Import ListNotations.
Open Scope string_scope.

(** ** Python strings

    A [str] is modelled by a Rocq [string] whose characters are the code
    points 0..255; [len], slicing and [strip] count characters, as in
    Python. *)

(** [sep.join(parts)] *)
Fixpoint join (sep : string) (parts : list string) : string :=
  match parts with
  | [] => ""
  | [p] => p
  | p :: rest => p ++ sep ++ join sep rest
  end.

(** [s[:n]] *)
Fixpoint str_take (n : nat) (s : string) : string :=
  match n, s with
  | O, _ => ""
  | S _, EmptyString => ""
  | S n', String c s' => String c (str_take n' s')
  end.

Definition str_rev (s : string) : string :=
  string_of_list_ascii (rev (list_ascii_of_string s)).

(** [str.isspace] on one character, for the code points below 256:
    TAB..CR, FS..US, SPACE, NEL and NBSP. *)
Definition py_isspace (c : ascii) : bool :=
  let n := nat_of_ascii c in
  (((9 <=? n) && (n <=? 13)) || ((28 <=? n) && (n <=? 32))
   || (n =? 133) || (n =? 160))%nat.

Fixpoint lstrip (s : string) : string :=
  match s with
  | EmptyString => ""
  | String c s' => if py_isspace c then lstrip s' else s
  end.

(** [s.strip()] *)
Definition strip (s : string) : string :=
  str_rev (lstrip (str_rev (lstrip s))).

Fixpoint str_all (p : ascii -> bool) (s : string) : bool :=
  match s with
  | EmptyString => true
  | String c s' => p c && str_all p s'
  end.

Fixpoint str_mem (c : ascii) (s : string) : bool :=
  match s with
  | EmptyString => false
  | String c' s' => Ascii.eqb c c' || str_mem c s'
  end.

Definition hex_digit (n : nat) : ascii :=
  ascii_of_nat (if n <? 10 then 48 + n else 87 + n)%nat.

(** What [repr] keeps as it is: printable ASCII, and the printable part of
    Latin-1 (everything from 0xA1 on but the soft hyphen 0xAD). *)
Definition py_isprintable (c : ascii) : bool :=
  let n := nat_of_ascii c in
  (((32 <=? n) && (n <? 127)) || ((161 <=? n) && negb (n =? 173)))%nat.

Definition repr_char (quote : ascii) (c : ascii) : string :=
  let n := nat_of_ascii c in
  if Ascii.eqb c quote || Ascii.eqb c "\"%char then String "\"%char (String c "")
  else if (n =? 9)%nat then "\t"
  else if (n =? 10)%nat then "\n"
  else if (n =? 13)%nat then "\r"
  else if py_isprintable c then String c ""
  else String "\"%char (String "x"%char
         (String (hex_digit (n / 16)) (String (hex_digit (n mod 16)) ""))).

Fixpoint repr_chars (quote : ascii) (s : string) : string :=
  match s with
  | EmptyString => ""
  | String c s' => repr_char quote c ++ repr_chars quote s'
  end.

(** [repr(s)] for a [str]: single quotes, unless the text has a single
    quote and no double quote. *)
Definition double_quote : ascii := ascii_of_nat 34.

Definition repr_str (s : string) : string :=
  let quote :=
    if str_mem "'"%char s && negb (str_mem double_quote s)
    then double_quote else "'"%char in
  String quote (repr_chars quote s ++ String quote "").

(** ** Python values

    What a configuration mapping ([dict[str, Any]]) holds: [None],
    booleans, integers, strings, lists, and dictionaries with string
    keys.  A [dict] keeps its insertion order, so it is an association
    list; a well-formed one has no key twice. *)

#[local] Set Warnings "-register-all".

Inductive PyVal : Type :=
| VNone
| VBool (b : bool)
| VInt (z : Z)
| VStr (s : string)
| VList (l : list PyVal)
| VDict (d : list (string * PyVal)).

Definition Dict := list (string * PyVal).

(** [bool(v)] *)
Definition truthy (v : PyVal) : bool :=
  match v with
  | VNone => false
  | VBool b => b
  | VInt z => negb (Z.eqb z 0)
  | VStr s => negb (String.eqb s "")
  | VList l => match l with [] => false | _ => true end
  | VDict d => match d with [] => false | _ => true end
  end.

Fixpoint py_repr (v : PyVal) : string :=
  match v with
  | VNone => "None"
  | VBool true => "True"
  | VBool false => "False"
  | VInt z => NilZero.string_of_int (Z.to_int z)
  | VStr s => repr_str s
  | VList l => "[" ++ join ", " (map py_repr l) ++ "]"
  | VDict d =>
      "{" ++ join ", " (map (fun kv : string * PyVal => let (k, x) := kv in
                                        repr_str k ++ ": " ++ py_repr x) d) ++ "}"
  end.

(** [str(v)], which is also what an f-string field [{v}] formats to. *)
Definition py_str (v : PyVal) : string :=
  match v with
  | VStr s => s
  | _ => py_repr v
  end.

(** [v == "text"] against a string literal: only an equal [str] is. *)
Definition eq_str (v : PyVal) (text : string) : bool :=
  match v with
  | VStr s => String.eqb s text
  | _ => false
  end.

(** *** Dictionaries *)

Section Dicts.
Context {V : Type}.

Fixpoint dict_find (d : list (string * V)) (k : string) : option V :=
  match d with
  | [] => None
  | (k', v) :: rest => if String.eqb k k' then Some v else dict_find rest k
  end.

(** [k in d] for a string key *)
Definition dict_mem (d : list (string * V)) (k : string) : bool :=
  match dict_find d k with Some _ => true | None => false end.

(** [d[k] = v]: an existing key keeps its place, a new one goes last. *)
Fixpoint dict_set (d : list (string * V)) (k : string) (v : V)
  : list (string * V) :=
  match d with
  | [] => [(k, v)]
  | (k', v') :: rest =>
      if String.eqb k k' then (k', v) :: rest
      else (k', v') :: dict_set rest k v
  end.

(** [for k, v in l: d[k] = v] *)
Definition set_all (d l : list (string * V)) : list (string * V) :=
  fold_left (fun d kv => dict_set d (fst kv) (snd kv)) l d.

Definition dict_keys (d : list (string * V)) : list string := map fst d.
Definition dict_values (d : list (string * V)) : list V := map snd d.
End Dicts.

(** [d.get(k, default)] *)
Definition dict_get (d : Dict) (k : string) (default : PyVal) : PyVal :=
  match dict_find d k with
  | Some v => v
  | None => default
  end.

(** ** Exceptions and the runner monad *)

Inductive exn : Type :=
| ValueError (msg : string)
| RuntimeError (msg : string)
| ImportError
| AttributeError
| TypeError
| KeyError
| OSError
| UnicodeDecodeError.

(** [isinstance(e, OSError)] / [isinstance(e, ImportError)] on the classes
    above. *)
Definition is_OSError (e : exn) : bool :=
  match e with OSError => true | _ => false end.

Definition is_ImportError (e : exn) : bool :=
  match e with ImportError => true | _ => false end.

Inductive result (A : Type) : Type :=
| Ok (a : A)
| Raise (e : exn).
Arguments Ok {A} a.
Arguments Raise {A} e.

(** The state a method runs in: the caller's configuration object and the
    backend objects constructed so far, oldest first. *)
Record State (Obj : Type) : Type := mkState {
  crew_config : Dict;
  objects : list Obj
}.
Arguments mkState {Obj} _ _.
Arguments crew_config {Obj} _.
Arguments objects {Obj} _.

Definition M (Obj A : Type) : Type := State Obj -> result A * State Obj.

Definition ret {Obj A} (a : A) : M Obj A := fun st => (Ok a, st).

Definition raise {Obj A} (e : exn) : M Obj A := fun st => (Raise e, st).

Definition bind {Obj A B} (m : M Obj A) (f : A -> M Obj B) : M Obj B :=
  fun st =>
    match m st with
    | (Ok a, st') => f a st'
    | (Raise e, st') => (Raise e, st')
    end.

Definition lift {Obj A} (r : result A) : M Obj A := fun st => (r, st).

(** A backend constructor call: the new object is built from its identity
    (the number of objects built before it) and recorded. *)
Definition construct {Obj A} (mk : nat -> A) (inj : A -> Obj) : M Obj A :=
  fun st =>
    let a := mk (length (objects st)) in
    (Ok a, mkState (crew_config st) (objects st ++ [inj a])).

Declare Scope runner_scope.
Delimit Scope runner_scope with runner.
Notation "x <- m ;; k" := (bind m (fun x => k))
  (at level 100, m at next level, right associativity) : runner_scope.
Notation "m ;;; k" := (bind m (fun _ => k))
  (at level 100, right associativity) : runner_scope.
Open Scope runner_scope.

(** [l.append(x)] *)
Definition append {A} (l : list A) (x : A) : list A := (l ++ [x])%list.

(** [for x in xs: acc = body(acc, x)] *)
Fixpoint for_each {Obj A B} (xs : list A) (body : B -> A -> M Obj B) (acc : B)
  : M Obj B :=
  match xs with
  | [] => ret acc
  | x :: rest => acc' <- body acc x ;; for_each rest body acc'
  end.

(** [config[k] = v] on the caller's object: what a method that mutated the
    configuration would do.  No method of the two runners does. *)
Definition config_set {Obj} (k : string) (v : PyVal) : M Obj unit :=
  fun st => (Ok tt, mkState (dict_set (crew_config st) k v) (objects st)).

(** A computation that gives on [st1] the result it gives on [st2], and
    leaves both states as they are. *)
Definition agree {Obj A} (st1 st2 : State Obj) (m : M Obj A) : Prop :=
  m st1 = (fst (m st2), st1) /\ m st2 = (fst (m st2), st2).

(** A computation that leaves the caller's configuration object as it
    found it. *)
Definition keeps_config {Obj A} (m : M Obj A) : Prop :=
  forall st, crew_config (snd (m st)) = crew_config st.

(** [v.items()] and [v.get(k, default)]: only a [dict] has them. *)
Definition py_items (v : PyVal) : result Dict :=
  match v with
  | VDict d => Ok d
  | _ => Raise AttributeError
  end.

Definition py_get (v : PyVal) (k : string) (default : PyVal) : result PyVal :=
  match v with
  | VDict d => Ok (dict_get d k default)
  | _ => Raise AttributeError
  end.

(** [iter(v)]: the elements of a list, the characters of a string, the
    keys of a dictionary. *)
Definition py_iter (v : PyVal) : result (list PyVal) :=
  match v with
  | VList l => Ok l
  | VStr s => Ok (map (fun c => VStr (String c "")) (list_ascii_of_string s))
  | VDict d => Ok (map VStr (dict_keys d))
  | _ => Raise TypeError
  end.

(** [v[:n]]: strings and lists slice; the other values raise. *)
Definition py_slice_to (n : nat) (v : PyVal) : result PyVal :=
  match v with
  | VStr s => Ok (VStr (str_take n s))
  | VList l => Ok (VList (firstn n l))
  | _ => Raise TypeError
  end.

(** [v in d] for a dictionary with string keys: a list or a dictionary is
    unhashable; any other value that is not a [str] equals no key. *)
Definition py_in {V} (v : PyVal) (d : list (string * V)) : result bool :=
  match v with
  | VStr s => Ok (dict_mem d s)
  | VList _ | VDict _ => Raise TypeError
  | _ => Ok false
  end.

(** [d[v]] *)
Definition py_index {V} (d : list (string * V)) (v : PyVal) : result V :=
  match v with
  | VStr s => match dict_find d s with
              | Some x => Ok x
              | None => Raise KeyError
              end
  | VList _ | VDict _ => Raise TypeError
  | _ => Raise KeyError
  end.

(** A mapping all of whose values are dictionaries, as a Python value. *)
Definition dicts (items : list (string * Dict)) : Dict :=
  map (fun kc => (fst kc, VDict (snd kc))) items.

(** [config.get(k, default)] on the caller's [crew_config] object. *)
Definition config_get {Obj} (k : string) (default : PyVal) : M Obj PyVal :=
  fun st => (Ok (dict_get (crew_config st) k default), st).

(** ** crewai_runner.py

    A method runs on a constructed runner, so the SDK modules its body
    imports are there; only the constructor's import is modelled.  What
    the adapter calls but does not own is a variable of the section: the
    language-model factory [get_llm] of the base class, the file system
    under a knowledge path, the import machinery, and [Crew.kickoff]. *)

Module CrewAIRunner.

Inductive Process : Type := sequential | hierarchical.

(** What [crew.kickoff] hands back: an object with a [raw] attribute, or
    one without, of which only [str] is taken. *)
Inductive KickoffResult : Type :=
| WithRaw (raw : PyVal)
| Plain (text : string).

Section Backend.
Variable LLM : Type.
Variable get_llm : PyVal -> LLM.

(** [Path.exists], [Path.rglob(pattern)] and [Path.read_text] on paths
    given by their text. *)
Variable path_exists : string -> bool.
Variable rglob : string -> string -> list string.
Variable read_text : string -> result string.

Variable import_module : string -> result unit.

Record Agent : Type := mkAgent {
  agent_id : nat;
  role : PyVal;
  goal : PyVal;
  backstory : PyVal;
  llm : LLM;
  tools : list PyVal;
  allow_delegation : PyVal;
  agent_verbose : PyVal
}.

Record Task : Type := mkTask {
  task_id : nat;
  description : PyVal;
  expected_output : PyVal;
  agent : Agent
}.

Record TextFileKnowledgeSource : Type := mkSource {
  source_id : nat;
  file_paths : list string
}.

Record Crew : Type := mkCrew {
  crew_id : nat;
  agents : list Agent;
  tasks : list Task;
  process : Process;
  planning : PyVal;
  memory : PyVal;
  knowledge_sources : option (list TextFileKnowledgeSource);
  verbose : PyVal
}.

Variable kickoff : Crew -> Dict -> result KickoffResult.

(** The backend-native objects of this adapter. *)
Inductive Native : Type :=
| NAgent (a : Agent)
| NTask (t : Task)
| NSource (k : TextFileKnowledgeSource)
| NCrew (c : Crew).

Definition __init__ : M Native unit :=
  match import_module "crewai" with
  | Ok _ => ret tt
  | Raise e =>
      if is_ImportError e
      then raise (RuntimeError
                    "CrewAI not installed. Install with: pip install crewai[tools]")
      else raise e
  end.

Definition build_agent (agent_config : PyVal) (tools : option (list PyVal))
  : M Native Agent :=
  role <- lift (py_get agent_config "role" (VStr "Agent")) ;;
  goal <- lift (py_get agent_config "goal" (VStr "")) ;;
  backstory <- lift (py_get agent_config "backstory" (VStr "")) ;;
  llm_name <- lift (py_get agent_config "llm" VNone) ;;
  allow_delegation <- lift (py_get agent_config "allow_delegation" (VBool false)) ;;
  construct
    (fun id => mkAgent id role goal backstory (get_llm llm_name)
                 (match tools with Some (t :: ts) => t :: ts | _ => [] end)
                 allow_delegation (VBool true))
    NAgent.

Definition build_task (task_config : PyVal) (agent : Agent) : M Native Task :=
  description <- lift (py_get task_config "description" (VStr "")) ;;
  expected_output <- lift (py_get task_config "expected_output" (VStr "")) ;;
  construct (fun id => mkTask id description expected_output agent) NTask.

(** [Path(knowledge_path)]; a path object and its text are the same
    value here. *)
Definition to_Path (v : PyVal) : result string :=
  match v with
  | VStr s => Ok s
  | _ => Raise TypeError
  end.

(** The [try] block around one file. *)
Definition load_file (sources : list TextFileKnowledgeSource) (file_path : string)
  : M Native (list TextFileKnowledgeSource) :=
  match read_text file_path with
  | Ok content =>
      if truthy (VStr (strip content))
      then source <- construct (fun id => mkSource id [file_path]) NSource ;;
           ret (append sources source)
      else ret sources
  | Raise e => if is_OSError e then ret sources else raise e
  end.

Definition _load_knowledge (knowledge_paths : PyVal)
  : M Native (list TextFileKnowledgeSource) :=
  paths <- lift (py_iter knowledge_paths) ;;
  for_each paths
    (fun sources knowledge_path =>
       knowledge_path <- lift (to_Path knowledge_path) ;;
       if negb (path_exists knowledge_path) then ret sources
       else
         for_each ["*.md"; "*.txt"; "*.py"; "*.ts"]
           (fun sources ext =>
              for_each (rglob knowledge_path ext) load_file sources)
           sources)
    [].

Definition process_of (process_type : PyVal) : Process :=
  if eq_str process_type "hierarchical" then hierarchical else sequential.

Definition invalid_agent (task_name : string) (agent_name : PyVal) : exn :=
  ValueError ("Task '" ++ task_name ++ "' has invalid agent: " ++ py_str agent_name).

(** The body of the loop over [tasks_config.items()]. *)
Definition task_step (agents : list (string * Agent)) (tasks : list Task)
    (item : string * PyVal) : M Native (list Task) :=
  let (task_name, task_cfg) := item in
  agent_name <- lift (py_get task_cfg "agent" VNone) ;;
  invalid <- (if negb (truthy agent_name) then ret true
              else known <- lift (py_in agent_name agents) ;; ret (negb known)) ;;
  if invalid : bool then raise (invalid_agent task_name agent_name)
  else
    agent <- lift (py_index agents agent_name) ;;
    task <- build_task task_cfg agent ;;
    ret (append tasks task).

(** The body of the loop over [agents_config.items()]. *)
Definition agent_step (agents : list (string * Agent)) (item : string * PyVal)
  : M Native (list (string * Agent)) :=
  let (agent_name, agent_cfg) := item in
  agent <- build_agent agent_cfg None ;;
  ret (dict_set agents agent_name agent).

Definition build_crew : M Native Crew :=
  agents_config <- config_get "agents" (VDict []) ;;
  agent_items <- lift (py_items agents_config) ;;
  agents <- for_each agent_items agent_step [] ;;
  tasks_config <- config_get "tasks" (VDict []) ;;
  task_items <- lift (py_items tasks_config) ;;
  tasks <- for_each task_items (task_step agents) [] ;;
  knowledge_paths <- config_get "knowledge_paths" (VList []) ;;
  knowledge_sources <- _load_knowledge knowledge_paths ;;
  process_type <- config_get "process" (VStr "sequential") ;;
  let process := process_of process_type in
  planning <- config_get "planning" (VBool true) ;;
  memory <- config_get "memory" (VBool true) ;;
  verbose <- config_get "verbose" (VBool true) ;;
  construct
    (fun id => mkCrew id (dict_values agents) tasks process planning memory
                 (match knowledge_sources with [] => None | _ => Some knowledge_sources end)
                 verbose)
    NCrew.

Definition run (crew : Crew) (inputs : Dict) : M Native PyVal :=
  result <- lift (kickoff crew inputs) ;;
  match result with
  | WithRaw raw => ret raw
  | Plain text => ret (VStr text)
  end.

(** *** The loops in closed form

    What the three loops of [build_crew] build, stated by recursion on the
    mappings; the theorems below relate the loops to them. *)

(** The agent [build_agent] makes of one agent entry, as object [id]. *)
Definition agent_of (id : nat) (agent_cfg : Dict) : Agent :=
  mkAgent id
    (dict_get agent_cfg "role" (VStr "Agent"))
    (dict_get agent_cfg "goal" (VStr ""))
    (dict_get agent_cfg "backstory" (VStr ""))
    (get_llm (dict_get agent_cfg "llm" VNone))
    []
    (dict_get agent_cfg "allow_delegation" (VBool false))
    (VBool true).

Fixpoint agents_from (id : nat) (agent_items : list (string * Dict))
  : list (string * Agent) :=
  match agent_items with
  | [] => []
  | (agent_name, agent_cfg) :: rest =>
      (agent_name, agent_of id agent_cfg) :: agents_from (S id) rest
  end.

(** The dictionary [agents] after the first loop. *)
Definition agents_dict (id : nat) (agent_items : list (string * Dict))
  : list (string * Agent) :=
  set_all [] (agents_from id agent_items).

Definition task_of (id : nat) (task_cfg : Dict) (agent : Agent) : Task :=
  mkTask id
    (dict_get task_cfg "description" (VStr ""))
    (dict_get task_cfg "expected_output" (VStr ""))
    agent.

(** The built agent a task entry's [agent] field selects: the field is a
    non-empty string and a key of [agents]. *)
Definition agent_for (agents : list (string * Agent)) (task_cfg : Dict)
  : option Agent :=
  match dict_get task_cfg "agent" VNone with
  | VStr agent_name =>
      if String.eqb agent_name "" then None else dict_find agents agent_name
  | _ => None
  end.

(** The tasks built before the first entry without such an agent. *)
Fixpoint tasks_from (id : nat) (agents : list (string * Agent))
    (task_items : list (string * Dict)) : list Task :=
  match task_items with
  | [] => []
  | (_, task_cfg) :: rest =>
      match agent_for agents task_cfg with
      | Some agent => task_of id task_cfg agent :: tasks_from (S id) agents rest
      | None => []
      end
  end.

(** The first task entry without such an agent, and its [agent] field. *)
Fixpoint first_invalid (agents : list (string * Agent))
    (task_items : list (string * Dict)) : option (string * PyVal) :=
  match task_items with
  | [] => None
  | (task_name, task_cfg) :: rest =>
      match agent_for agents task_cfg with
      | Some _ => first_invalid agents rest
      | None => Some (task_name, dict_get task_cfg "agent" VNone)
      end
  end.

(** An [agent] field the membership test can be asked about: falsy, or
    hashable. *)
Definition checkable (agent_name : PyVal) : bool :=
  negb (truthy agent_name)
  || match agent_name with VList _ | VDict _ => false | _ => true end.

(** The [agent] field of a task entry names an entry of the [agents]
    mapping, by a non-empty name. *)
Definition resolves (agent_items : list (string * Dict)) (task_cfg : Dict) : Prop :=
  exists name,
    dict_get task_cfg "agent" VNone = VStr name
    /\ name <> "" /\ In name (dict_keys agent_items).

Definition checkable_items (task_items : list (string * Dict)) : Prop :=
  Forall (fun kc => checkable (dict_get (snd kc) "agent" VNone) = true) task_items.

(** The files one knowledge path contributes, and all of them, in scan
    order. *)
Definition matched_files (knowledge_path : string) : list string :=
  flat_map (rglob knowledge_path) ["*.md"; "*.txt"; "*.py"; "*.ts"].

Definition scanned_files (knowledge_paths : list string) : list string :=
  flat_map matched_files (filter path_exists knowledge_paths).

(** A file that becomes a source: it reads, and not to blank text. *)
Definition qualifies (file_path : string) : bool :=
  match read_text file_path with
  | Ok content => truthy (VStr (strip content))
  | Raise _ => false
  end.

Fixpoint sources_from (id : nat) (files : list string)
  : list TextFileKnowledgeSource :=
  match files with
  | [] => []
  | file_path :: rest =>
      if qualifies file_path
      then mkSource id [file_path] :: sources_from (S id) rest
      else sources_from id rest
  end.

(** The crew assembled from what the loops built, as object [id]. *)
Definition crew_of (config : Dict) (id : nat) (agents : list (string * Agent))
    (tasks : list Task) (sources : list TextFileKnowledgeSource) : Crew :=
  mkCrew id (dict_values agents) tasks
    (process_of (dict_get config "process" (VStr "sequential")))
    (dict_get config "planning" (VBool true))
    (dict_get config "memory" (VBool true))
    (match sources with [] => None | _ => Some sources end)
    (dict_get config "verbose" (VBool true)).

(** Every read that fails among [files] fails with an [OSError]. *)
Definition fails_only_with_OSError (files : list string) : Prop :=
  forall file_path e,
    In file_path files -> read_text file_path = Raise e -> is_OSError e = true.

End Backend.

Arguments agent_id {LLM} _.
Arguments role {LLM} _.
Arguments goal {LLM} _.
Arguments backstory {LLM} _.
Arguments llm {LLM} _.
Arguments tools {LLM} _.
Arguments allow_delegation {LLM} _.
Arguments agent_verbose {LLM} _.
Arguments task_id {LLM} _.
Arguments description {LLM} _.
Arguments expected_output {LLM} _.
Arguments agent {LLM} _.
Arguments crew_id {LLM} _.
Arguments agents {LLM} _.
Arguments tasks {LLM} _.
Arguments process {LLM} _.
Arguments planning {LLM} _.
Arguments memory {LLM} _.
Arguments knowledge_sources {LLM} _.
Arguments verbose {LLM} _.
Arguments NAgent {LLM} _.
Arguments NTask {LLM} _.
Arguments NSource {LLM} _.
Arguments NCrew {LLM} _.
Arguments mkAgent {LLM}.
Arguments mkTask {LLM}.
Arguments mkCrew {LLM}.
Arguments agent_of {LLM}.
Arguments agents_from {LLM}.
Arguments agents_dict {LLM}.
Arguments task_of {LLM}.
Arguments agent_for {LLM}.
Arguments tasks_from {LLM}.
Arguments first_invalid {LLM}.
Arguments crew_of {LLM}.
Arguments build_agent {LLM}.
Arguments build_task {LLM}.
Arguments task_step {LLM}.
Arguments agent_step {LLM}.
Arguments load_file {LLM}.
Arguments _load_knowledge {LLM}.
Arguments build_crew {LLM}.
Arguments run {LLM}.
Arguments __init__ {LLM}.

End CrewAIRunner.

(** ** strands_runner.py *)

(** The newline of the f-strings. *)
Definition nl : string := String (ascii_of_nat 10) "".

(** [config[k]] on the caller's [crew_config] object. *)
Definition config_index {Obj} (k : string) : M Obj PyVal :=
  fun st =>
    match dict_find (crew_config st) k with
    | Some v => (Ok v, st)
    | None => (Raise KeyError, st)
    end.

Module StrandsRunner.

Section Backend.
Variable import_module : string -> result unit.

Record Agent : Type := mkAgent {
  agent_id : nat;
  system_prompt : string;
  tools : list PyVal
}.

(** Calling the agent on a prompt, and [str] of what it returns. *)
Variable AgentResult : Type.
Variable call : Agent -> PyVal -> result AgentResult.
Variable result_str : AgentResult -> string.

Inductive Native : Type :=
| NAgent (a : Agent).

(** What [build_task] returns: a plain dictionary, no backend object. *)
Record TaskDict : Type := mkTaskDict {
  description : PyVal;
  expected_output : PyVal;
  agent : Agent
}.

Definition __init__ : M Native unit :=
  match import_module "strands" with
  | Ok _ => ret tt
  | Raise e =>
      if is_ImportError e
      then raise (RuntimeError
                    "Strands not installed. Install with: pip install strands-agents")
      else raise e
  end.

Definition purpose_step (parts : list string) : M Native (list string) :=
  description <- config_get "description" VNone ;;
  if truthy description
  then description <- config_index "description" ;;
       ret (append parts ("# Your Purpose" ++ nl ++ py_str description))
  else ret parts.

(** The body of the loop over [agents.items()]. *)
Definition capability_step (parts : list string) (item : string * PyVal)
  : M Native (list string) :=
  let (agent_name, agent_cfg) := item in
  role <- lift (py_get agent_cfg "role" (VStr agent_name)) ;;
  goal <- lift (py_get agent_cfg "goal" (VStr "")) ;;
  let parts := append parts (nl ++ "## " ++ py_str role) in
  if truthy goal
  then ret (append parts ("Goal: " ++ py_str goal))
  else ret parts.

Definition capabilities_step (parts : list string) : M Native (list string) :=
  agents <- config_get "agents" (VDict []) ;;
  if truthy agents
  then let parts := append parts (nl ++ "# Your Capabilities") in
       items <- lift (py_items agents) ;;
       for_each items capability_step parts
  else ret parts.

(** The body of the loop over [tasks.items()]. *)
Definition task_step (parts : list string) (item : string * PyVal)
  : M Native (list string) :=
  let (task_name, task_cfg) := item in
  desc <- lift (py_get task_cfg "description" (VStr "")) ;;
  if truthy desc
  then cut <- lift (py_slice_to 200 desc) ;;
       ret (append parts (nl ++ "- " ++ task_name ++ ": " ++ py_str cut ++ "..."))
  else ret parts.

Definition tasks_step (parts : list string) : M Native (list string) :=
  tasks <- config_get "tasks" (VDict []) ;;
  if truthy tasks
  then let parts := append parts (nl ++ "# Tasks You Can Perform") in
       items <- lift (py_items tasks) ;;
       for_each items task_step parts
  else ret parts.

(** The list [parts] as it stands at the [return]. *)
Definition prompt_parts : M Native (list string) :=
  parts <- purpose_step [] ;;
  parts <- capabilities_step parts ;;
  tasks_step parts.

Definition _build_system_prompt : M Native string :=
  parts <- prompt_parts ;;
  ret (join nl parts).

Definition _collect_tools : M Native (list PyVal) := ret [].

Definition build_crew : M Native Agent :=
  system_prompt <- _build_system_prompt ;;
  tools <- _collect_tools ;;
  construct (fun id => mkAgent id system_prompt tools) NAgent.

(** The prompt [run] derives from its inputs. *)
Definition input_prompt (inputs : Dict) : PyVal :=
  dict_get inputs "input" (dict_get inputs "task" (VStr (py_str (VDict inputs)))).

Definition run (crew : Agent) (inputs : Dict) : M Native string :=
  let prompt := input_prompt inputs in
  result <- lift (call crew prompt) ;;
  ret (result_str result).

Definition build_agent (agent_config : PyVal) (tools : option (list PyVal))
  : M Native Agent :=
  role <- lift (py_get agent_config "role" (VStr "helpful assistant")) ;;
  goal <- lift (py_get agent_config "goal" (VStr "")) ;;
  backstory <- lift (py_get agent_config "backstory" (VStr "")) ;;
  let system_prompt :=
    "You are a " ++ py_str role ++ "." ++ nl ++ nl
    ++ "Goal: " ++ py_str goal ++ nl ++ nl
    ++ "Background: " ++ py_str backstory in
  construct
    (fun id => mkAgent id system_prompt
                 (match tools with Some (t :: ts) => t :: ts | _ => [] end))
    NAgent.

Definition build_task (task_config : PyVal) (agent : Agent) : M Native TaskDict :=
  description <- lift (py_get task_config "description" (VStr "")) ;;
  expected_output <- lift (py_get task_config "expected_output" (VStr "")) ;;
  ret (mkTaskDict description expected_output agent).

(** *** The prompt in closed form

    The three sections of the prompt, stated by recursion on the
    mappings; the theorems below relate [prompt_parts] to them. *)

Definition purpose_section (config : Dict) : list string :=
  let description := dict_get config "description" VNone in
  if truthy description
  then ["# Your Purpose" ++ nl ++ py_str description]
  else [].

Definition capability_block (item : string * Dict) : list string :=
  let (agent_name, agent_cfg) := item in
  let role := dict_get agent_cfg "role" (VStr agent_name) in
  let goal := dict_get agent_cfg "goal" (VStr "") in
  (nl ++ "## " ++ py_str role)
    :: (if truthy goal then ["Goal: " ++ py_str goal] else []).

Definition capabilities_section (agent_items : list (string * Dict)) : list string :=
  match agent_items with
  | [] => []
  | _ => (nl ++ "# Your Capabilities") :: flat_map capability_block agent_items
  end.

(** The description of a task entry, when it is a string. *)
Definition description_of (task_cfg : Dict) : string :=
  match dict_get task_cfg "description" (VStr "") with
  | VStr desc => desc
  | _ => ""
  end.

Definition has_description (item : string * Dict) : bool :=
  negb (String.eqb (description_of (snd item)) "").

Definition task_summary (item : string * Dict) : string :=
  nl ++ "- " ++ fst item ++ ": " ++ str_take 200 (description_of (snd item)) ++ "...".

Definition task_lines (task_items : list (string * Dict)) : list string :=
  map task_summary (filter has_description task_items).

Definition tasks_section (task_items : list (string * Dict)) : list string :=
  match task_items with
  | [] => []
  | _ => (nl ++ "# Tasks You Can Perform") :: task_lines task_items
  end.

(** Every task entry's description, when it has one, is a string. *)
Definition string_descriptions (task_items : list (string * Dict)) : Prop :=
  Forall (fun kc => exists desc,
              dict_get (snd kc) "description" (VStr "") = VStr desc) task_items.

(** *** Headings and what stands under them

    The prompt read line by line: a heading has content when the first
    line under it that is not blank is no heading. *)

Fixpoint split_lines (current : string) (text : string) : list string :=
  match text with
  | EmptyString => [str_rev current]
  | String c rest =>
      if Ascii.eqb c (ascii_of_nat 10)
      then str_rev current :: split_lines "" rest
      else split_lines (String c current) rest
  end.

Definition lines (text : string) : list string := split_lines "" text.

Definition is_heading (line : string) : bool :=
  String.eqb line "# Your Purpose"
  || String.eqb line "# Your Capabilities"
  || String.eqb line "# Tasks You Can Perform".

Fixpoint has_content (below : list string) : bool :=
  match below with
  | [] => false
  | line :: rest =>
      if String.eqb line "" then has_content rest else negb (is_heading line)
  end.

Fixpoint headings_have_content (text : list string) : bool :=
  match text with
  | [] => true
  | line :: rest =>
      (if is_heading line then has_content rest else true)
      && headings_have_content rest
  end.

End Backend.

Arguments run {AgentResult}.

End StrandsRunner.

(** ** pytest_agentic_crew/plugin.py

    The collection hook, the fixtures that put mocks in [sys.modules], and
    the configuration fixtures a test hands to a runner. *)

Module Plugin.

(** *** [pytest_collection_modifyitems] *)

Record Mark : Type := mkMark {
  mark_name : string;
  mark_reason : string
}.

(** A collected test: its keywords (the names of its markers among
    them) and its own markers, oldest first. *)
Record Item : Type := mkItem {
  nodeid : string;
  keywords : list string;
  own_markers : list Mark
}.

(** [pytest.mark.skip(reason=reason)] *)
Definition skip (reason : string) : Mark := mkMark "skip" reason.

(** [name in item.keywords] *)
Definition has_keyword (item : Item) (name : string) : bool :=
  existsb (String.eqb name) (keywords item).

(** [item.add_marker(marker)]: the marker is appended to the item's own
    markers and its name becomes a keyword. *)
Definition add_marker (item : Item) (marker : Mark) : Item :=
  mkItem (nodeid item)
    (if has_keyword item (mark_name marker) then keywords item
     else (keywords item ++ [mark_name marker])%list)
    (own_markers item ++ [marker])%list.

Definition framework_markers : list string := ["crewai"; "langgraph"; "strands"].

(** [framework_markers.intersection(item.keywords)] *)
Definition test_frameworks (item : Item) : list string :=
  filter (has_keyword item) framework_markers.

(** [str(framework_filter)] and [bool(framework_filter)] for the value of
    the [--framework] option: [None] or a string. *)
Definition filter_text (framework_filter : option string) : string :=
  match framework_filter with
  | Some name => name
  | None => "None"
  end.

Definition skip_e2e : Mark := skip "E2E tests disabled (need --e2e flag)".

Definition skip_framework (framework_filter : option string) : Mark :=
  skip ("Test not for framework '" ++ filter_text framework_filter
        ++ "' (--framework filter)").

(** The body of the loop over [items]. *)
Definition collection_step (e2e_enabled : bool) (framework_filter : option string)
    (item : Item) : Item :=
  let item :=
    if has_keyword item "e2e" && negb e2e_enabled
    then add_marker item skip_e2e
    else item in
  match framework_filter with
  | Some name =>
      if String.eqb name "" then item
      else
        let found := test_frameworks item in
        if match found with [] => false | _ => true end
           && negb (existsb (String.eqb name) found)
        then add_marker item (skip_framework framework_filter)
        else item
  | None => item
  end.

Definition pytest_collection_modifyitems (e2e_enabled : bool)
    (framework_filter : option string) (items : list Item) : list Item :=
  map (collection_step e2e_enabled framework_filter) items.

(** The two tests of the loop body, on the item as it was collected. *)
Definition skipped_for_e2e (e2e_enabled : bool) (item : Item) : bool :=
  has_keyword item "e2e" && negb e2e_enabled.

Definition skipped_for_framework (framework_filter : option string) (item : Item)
  : bool :=
  match framework_filter with
  | Some name =>
      negb (String.eqb name "")
      && match test_frameworks item with [] => false | _ => true end
      && negb (existsb (String.eqb name) (test_frameworks item))
  | None => false
  end.

(** *** The fixtures that mock framework modules

    [mock_frameworks], [mock_crewai], [mock_langgraph] and [mock_strands]
    are one body over four lists of module names.  [sys.modules] is a
    dictionary from names to modules; [MagicMock n] is the [n]-th mock the
    mocker makes. *)

Definition FRAMEWORK_MODULES : list string :=
  ["crewai"; "crewai.knowledge"; "crewai.knowledge.source";
   "crewai.knowledge.source.text_file_knowledge_source";
   "langgraph"; "langgraph.prebuilt"; "langchain_anthropic"; "strands"].

Definition crewai_modules : list string :=
  ["crewai"; "crewai.knowledge"; "crewai.knowledge.source";
   "crewai.knowledge.source.text_file_knowledge_source"].

Definition langgraph_modules : list string :=
  ["langgraph"; "langgraph.prebuilt"; "langchain_anthropic"].

Definition strands_modules : list string := ["strands"].

(** [d.pop(k, None)] *)
Fixpoint dict_pop {V} (d : list (string * V)) (k : string) : list (string * V) :=
  match d with
  | [] => []
  | (k', v) :: rest =>
      if String.eqb k k' then rest else (k', v) :: dict_pop rest k
  end.

Section Mocking.
Variable PyModule : Type.
Variable MagicMock : nat -> PyModule.

(** What the fixture holds and changes: [sys.modules], its two
    dictionaries, and the number of mocks made so far. *)
Record Mocking : Type := mkMocking {
  sys_modules : list (string * PyModule);
  original_modules : list (string * PyModule);
  mock_modules : list (string * PyModule);
  mocks_made : nat
}.

(** The body of the loop before the [yield]. *)
Definition install (m : Mocking) (module_name : string) : Mocking :=
  let mock_modules := dict_set (mock_modules m) module_name (MagicMock (mocks_made m)) in
  let original_modules :=
    match dict_find (sys_modules m) module_name with
    | Some original => dict_set (original_modules m) module_name original
    | None => original_modules m
    end in
  let sys_modules :=
    match dict_find mock_modules module_name with
    | Some mock => dict_set (sys_modules m) module_name mock
    | None => sys_modules m
    end in
  mkMocking sys_modules original_modules mock_modules (S (mocks_made m)).

(** The fixture up to its [yield]. *)
Definition mock_setup (names : list string) (modules : list (string * PyModule))
    (made : nat) : Mocking :=
  fold_left install names (mkMocking modules [] [] made).

(** The body of the loop after the [yield]. *)
Definition restore (original_modules : list (string * PyModule))
    (modules : list (string * PyModule)) (module_name : string)
  : list (string * PyModule) :=
  match dict_find original_modules module_name with
  | Some original => dict_set modules module_name original
  | None => dict_pop modules module_name
  end.

(** The fixture after its [yield], on [sys.modules] as the test left it. *)
Definition mock_teardown (names : list string)
    (original_modules modules : list (string * PyModule))
  : list (string * PyModule) :=
  fold_left (restore original_modules) names modules.

Definition mock_frameworks := mock_setup FRAMEWORK_MODULES.
Definition mock_crewai := mock_setup crewai_modules.
Definition mock_langgraph := mock_setup langgraph_modules.
Definition mock_strands := mock_setup strands_modules.

End Mocking.

Arguments sys_modules {PyModule} _.
Arguments original_modules {PyModule} _.
Arguments mock_modules {PyModule} _.
Arguments mocks_made {PyModule} _.
Arguments mkMocking {PyModule}.
Arguments install {PyModule}.
Arguments mock_setup {PyModule}.
Arguments restore {PyModule}.
Arguments mock_teardown {PyModule}.
Arguments mock_frameworks {PyModule}.
Arguments mock_crewai {PyModule}.
Arguments mock_langgraph {PyModule}.
Arguments mock_strands {PyModule}.

(** *** The configuration fixtures *)

Definition simple_agent_config : Dict :=
  [("role", VStr "Test Agent");
   ("goal", VStr "Answer simple questions accurately");
   ("backstory",
    VStr "You are a helpful assistant focused on providing clear, concise answers.")].

Definition simple_task_config : Dict :=
  [("description", VStr "Answer the question: What is 2 + 2?");
   ("expected_output", VStr "The answer to the mathematical question")].

(** The two fixtures it is built from are its parameters, as in pytest. *)
Definition simple_crew_config (simple_agent_config simple_task_config : Dict) : Dict :=
  [("name", VStr "test_crew");
   ("description", VStr "A simple test crew");
   ("agents", VDict [("test_agent", VDict simple_agent_config)]);
   ("tasks",
    VDict [("test_task",
            VDict (dict_set simple_task_config "agent" (VStr "test_agent")))]);
   ("knowledge_paths", VList [])].

Definition multi_agent_crew_config : Dict :=
  [("name", VStr "multi_agent_crew");
   ("description", VStr "A crew with multiple collaborating agents");
   ("agents",
    VDict [("researcher",
            VDict [("role", VStr "Researcher");
                   ("goal", VStr "Gather and analyze information");
                   ("backstory", VStr "You are an expert researcher.")]);
           ("writer",
            VDict [("role", VStr "Writer");
                   ("goal", VStr "Write clear summaries");
                   ("backstory", VStr "You are a skilled technical writer.")])]);
   ("tasks",
    VDict [("research_task",
            VDict [("description", VStr "Research the topic: Python programming");
                   ("expected_output", VStr "Key facts about Python");
                   ("agent", VStr "researcher")]);
           ("writing_task",
            VDict [("description", VStr "Write a brief summary based on the research");
                   ("expected_output", VStr "A concise summary");
                   ("agent", VStr "writer");
                   ("context", VList [VStr "research_task"])])]);
   ("knowledge_paths", VList [])].

End Plugin.

(** ** Sample inputs

    Concrete configurations, file systems and backends on which the
    theorems below are run. *)

Module Samples.

Definition researcher_cfg : Dict :=
  [("role", VStr "Researcher"); ("goal", VStr "Find facts")].

Definition writer_cfg : Dict := [("role", VStr "Writer")].

Definition research_task_cfg : Dict :=
  [("description", VStr "Look things up"); ("agent", VStr "researcher")].

Definition writing_task_cfg : Dict :=
  [("description", VStr "Write it down"); ("agent", VStr "writer");
   ("context", VList [VStr "research_task"])].

Definition agent_items : list (string * Dict) :=
  [("researcher", researcher_cfg); ("writer", writer_cfg)].

Definition task_items : list (string * Dict) :=
  [("research_task", research_task_cfg); ("writing_task", writing_task_cfg)].

(** Two agents, two tasks, and a [process] that is no process name. *)
Definition two_agent_crew : Dict :=
  [("name", VStr "demo"); ("description", VStr "Research and write");
   ("agents", VDict (dicts agent_items)); ("tasks", VDict (dicts task_items));
   ("process", VStr "bogus")].

(** The second task names an agent that is not declared. *)
Definition unknown_agent_items : list (string * Dict) :=
  [("research_task", research_task_cfg);
   ("writing_task", [("description", VStr "Write it down"); ("agent", VStr "editor")])].

Definition unknown_agent_crew : Dict :=
  [("agents", VDict (dicts agent_items)); ("tasks", VDict (dicts unknown_agent_items))].

(** The second task has no [agent] field. *)
Definition missing_agent_items : list (string * Dict) :=
  [("research_task", research_task_cfg);
   ("writing_task", [("description", VStr "Write it down")])].

Definition missing_agent_crew : Dict :=
  [("agents", VDict (dicts agent_items)); ("tasks", VDict (dicts missing_agent_items))].


(** One task, without a description. *)
Definition undescribed_task_crew : Dict :=
  [("tasks", VDict [("only_task", VDict [("expected_output", VStr "a report")])])].

(** A crew with one knowledge path. *)
Definition knowledge_crew : Dict :=
  [("agents", VDict (dicts agent_items)); ("tasks", VDict (dicts task_items));
   ("knowledge_paths", VList [VStr "kb"])].

(** A language-model factory, and a file system with nothing in it. *)
Definition no_llm (model : PyVal) : unit := tt.
Definition no_path (path : string) : bool := false.
Definition no_files (path pattern : string) : list string := [].
Definition no_text (path : string) : result string := Raise OSError.

(** A file system with one directory [kb] of three Markdown files: one
    that the reader may not open, one that is not text in the expected
    encoding, one that reads. *)
Definition kb_exists (path : string) : bool := String.eqb path "kb".

Definition kb_rglob (path pattern : string) : list string :=
  if String.eqb path "kb" && String.eqb pattern "*.md"
  then ["kb/locked.md"; "kb/binary.md"; "kb/notes.md"]
  else [].

Definition kb_read_text (path : string) : result string :=
  if String.eqb path "kb/binary.md" then Raise UnicodeDecodeError
  else if String.eqb path "kb/notes.md" then Ok "Some notes"
  else Raise OSError.

(** The same directory without the undecodable file. *)
Definition clean_rglob (path pattern : string) : list string :=
  if String.eqb path "kb" && String.eqb pattern "*.md"
  then ["kb/locked.md"; "kb/notes.md"]
  else [].

(** An import machinery without any SDK, and one with both. *)
Definition nothing_installed (module : string) : result unit := Raise ImportError.
Definition all_installed (module : string) : result unit := Ok tt.

(** [n] times the letter x. *)
Fixpoint fill (n : nat) : string :=
  match n with
  | O => ""
  | S n' => String "x" (fill n')
  end.

End Samples.

(** More sample inputs, outside the schema or for the plugin. *)

Module MoreSamples.

(** The second task gives its agent as a list of names. *)
Definition listed_agent_cfg : Dict :=
  [("description", VStr "Write it down"); ("agent", VList [VStr "writer"])].

Definition listed_agent_crew : Dict :=
  [("agents", VDict (dicts Samples.agent_items));
   ("tasks",
    VDict (dicts [("research_task", Samples.research_task_cfg);
                  ("writing_task", listed_agent_cfg)]))].

(** The second task gives a number for its description. *)
Definition numbered_cfg : Dict :=
  [("description", VInt 42); ("agent", VStr "writer")].

Definition numbered_crew : Dict :=
  [("agents", VDict (dicts Samples.agent_items));
   ("tasks",
    VDict (dicts [("research_task", Samples.research_task_cfg);
                  ("writing_task", numbered_cfg)]))].

(** [two_agent_crew] with another process and a knowledge path. *)
Definition hierarchical_crew : Dict :=
  [("description", VStr "Research and write");
   ("agents", VDict (dicts Samples.agent_items));
   ("tasks", VDict (dicts Samples.task_items));
   ("process", VStr "hierarchical");
   ("knowledge_paths", VList [VStr "kb"])].

(** Modules are numbers here: the loaded ones small, the mocks from 100. *)
Definition loaded_modules : list (string * nat) :=
  [("os", 1); ("crewai", 2); ("strands", 3)].

Definition numbered_mock (n : nat) : nat := 100 + n.

End MoreSamples.

(** * Facts about the model of Python values *)

Example repr_plain : py_str (VDict [("other", VStr "Y")]) = "{'other': 'Y'}".
Proof. reflexivity. Qed.

Example repr_nested :
  py_str (VDict [("a", VList [VInt (-12); VNone; VBool true; VStr "it's"])])
  = "{'a': [-12, None, True, "
    ++ String double_quote ("it's" ++ String double_quote "]}").
Proof. vm_compute. reflexivity. Qed.




(** [strip] leaves nothing exactly when every character is white space. *)

Lemma lstrip_empty (s : string) : lstrip s = "" <-> str_all py_isspace s = true.
Proof.
  induction s as [|c s IH]; simpl.
  - tauto.
  - destruct (py_isspace c); simpl; [exact IH|].
    split; discriminate.
Qed.

Lemma lstrip_head (s : string) c rest :
  lstrip s = String c rest -> py_isspace c = false.
Proof.
  induction s as [|c0 s IH]; simpl; [discriminate|].
  destruct (py_isspace c0) eqn:E; [exact IH|].
  intros H; inversion H; subst; exact E.
Qed.

Lemma str_all_forallb (p : ascii -> bool) (s : string) :
  str_all p s = forallb p (list_ascii_of_string s).
Proof.
  induction s as [|c s IH]; simpl; [|rewrite IH]; reflexivity.
Qed.

Lemma str_all_rev (p : ascii -> bool) (s : string) :
  str_all p (str_rev s) = str_all p s.
Proof.
  unfold str_rev. rewrite !str_all_forallb, list_ascii_of_string_of_list_ascii.
  generalize (list_ascii_of_string s) as l. intros l.
  destruct (forallb p l) eqn:E.
  - apply forallb_forall. intros x Hx. apply in_rev in Hx.
    rewrite forallb_forall in E. auto.
  - destruct (forallb p (rev l)) eqn:E'; [|reflexivity].
    rewrite forallb_forall in E'. rewrite <- E. symmetry.
    apply forallb_forall. intros x Hx. apply E'. apply in_rev.
    rewrite rev_involutive. exact Hx.
Qed.

Lemma str_rev_empty (s : string) : str_rev s = "" -> s = "".
Proof.
  unfold str_rev. intros H.
  apply (f_equal list_ascii_of_string) in H.
  rewrite list_ascii_of_string_of_list_ascii in H. simpl in H.
  apply (f_equal (@rev ascii)) in H. rewrite rev_involutive in H. simpl in H.
  apply (f_equal string_of_list_ascii) in H.
  rewrite string_of_list_ascii_of_string in H. exact H.
Qed.

Lemma strip_blank (s : string) : strip s = "" <-> str_all py_isspace s = true.
Proof.
  unfold strip. split.
  - intros H. apply str_rev_empty in H. apply lstrip_empty in H.
    rewrite str_all_rev in H. apply lstrip_empty.
    destruct (lstrip s) as [|c rest] eqn:E; [reflexivity|].
    apply lstrip_head in E. simpl in H. rewrite E in H. discriminate.
  - intros H. apply lstrip_empty in H. rewrite H. reflexivity.
Qed.

(** * Facts about the runner monad *)

Section MonadFacts.
Context {Obj : Type}.

Lemma bind_Ok {A B} (m : M Obj A) (f : A -> M Obj B) st a st' :
  m st = (Ok a, st') -> bind m f st = f a st'.
Proof. unfold bind; intros ->; reflexivity. Qed.

Lemma bind_Raise {A B} (m : M Obj A) (f : A -> M Obj B) st e st' :
  m st = (Raise e, st') -> bind m f st = (Raise e, st').
Proof. unfold bind; intros ->; reflexivity. Qed.

Lemma for_each_cons {A B} (x : A) (xs : list A) (body : B -> A -> M Obj B) acc st :
  for_each (x :: xs) body acc st = bind (body acc x) (for_each xs body) st.
Proof. reflexivity. Qed.

Lemma for_each_app {A B} (xs ys : list A) (body : B -> A -> M Obj B) acc st :
  for_each (xs ++ ys) body acc st
  = bind (for_each xs body acc) (for_each ys body) st.
Proof.
  revert acc st; induction xs as [|x xs IH]; intros acc st; simpl.
  - reflexivity.
  - unfold bind in *. destruct (body acc x st) as [[acc'|e] st1].
    + apply IH.
    + reflexivity.
Qed.

Lemma for_each_flat_map {A B C} (g : A -> list C) (xs : list A)
    (body : B -> C -> M Obj B) acc st :
  for_each xs (fun acc x => for_each (g x) body acc) acc st
  = for_each (flat_map g xs) body acc st.
Proof.
  revert acc st; induction xs as [|x xs IH]; intros acc st; simpl.
  - reflexivity.
  - rewrite for_each_app. unfold bind.
    destruct (for_each (g x) body acc st) as [[acc'|e] st1]; auto.
Qed.

Lemma keeps_ret {A} (a : A) : keeps_config (ret a : M Obj A).
Proof. intros st; reflexivity. Qed.

Lemma keeps_raise {A} e : keeps_config (raise e : M Obj A).
Proof. intros st; reflexivity. Qed.

Lemma keeps_lift {A} (r : result A) : keeps_config (lift r : M Obj A).
Proof. intros st; reflexivity. Qed.

Lemma keeps_config_get k default : keeps_config (config_get k default : M Obj PyVal).
Proof. intros st; reflexivity. Qed.

Lemma keeps_config_index k : keeps_config (config_index k : M Obj PyVal).
Proof.
  intros st; unfold config_index.
  destruct (dict_find (crew_config st) k); reflexivity.
Qed.

Lemma keeps_construct {A} (mk : nat -> A) (inj : A -> Obj) :
  keeps_config (construct mk inj).
Proof. intros st; reflexivity. Qed.

Lemma keeps_bind {A B} (m : M Obj A) (f : A -> M Obj B) :
  keeps_config m -> (forall a, keeps_config (f a)) -> keeps_config (bind m f).
Proof.
  intros Hm Hf st. unfold bind.
  specialize (Hm st). destruct (m st) as [[a|e] st1]; simpl in *.
  - rewrite Hf. exact Hm.
  - exact Hm.
Qed.

Lemma keeps_for_each {A B} (xs : list A) (body : B -> A -> M Obj B) :
  (forall acc x, keeps_config (body acc x)) ->
  forall acc, keeps_config (for_each xs body acc).
Proof.
  intros Hb. induction xs as [|x xs IH]; intros acc; simpl.
  - apply keeps_ret.
  - apply keeps_bind; auto.
Qed.

(** The property tells a write from a read. *)
Lemma config_set_is_seen (objs : list Obj) :
  crew_config (snd (config_set "process" (VStr "sequential") (mkState [] objs)))
  = [("process", VStr "sequential")]
  /\ ~ keeps_config (config_set "process" (VStr "sequential") : M Obj unit).
Proof.
  split; [reflexivity|]. intros H. specialize (H (mkState [] [])). discriminate H.
Qed.

End MonadFacts.

Create HintDb frame.
#[export] Hint Resolve keeps_ret keeps_raise keeps_lift keeps_config_get
  keeps_config_index keeps_construct keeps_bind keeps_for_each : frame.

(** Splits a computation along its binds and branches, down to the
    primitives above. *)
Ltac frame :=
  repeat first
    [ progress intros
    | apply keeps_bind
    | apply keeps_for_each
    | match goal with
      | |- keeps_config (if ?b then _ else _) => destruct b
      | |- keeps_config (match ?x with _ => _ end) => destruct x
      | |- keeps_config (let (_, _) := ?x in _) => destruct x
      end
    | solve [auto with frame] ].

(** * Facts about dictionaries *)

Section DictFacts.
Context {V : Type}.
Local Open Scope list_scope.
Implicit Types (d : list (string * V)) (k : string) (v : V).

Lemma dict_find_set d k v k' :
  dict_find (dict_set d k v) k'
  = if String.eqb k' k then Some v else dict_find d k'.
Proof.
  induction d as [|[k0 v0] d IH]; simpl.
  - reflexivity.
  - destruct (String.eqb k k0) eqn:E; simpl.
    + apply String.eqb_eq in E; subst k0.
      destruct (String.eqb k' k); reflexivity.
    + rewrite IH. destruct (String.eqb k' k0) eqn:E0; [|reflexivity].
      apply String.eqb_eq in E0; subst k0.
      rewrite String.eqb_sym, E. reflexivity.
Qed.

Lemma dict_find_None d k : dict_find d k = None <-> ~ In k (dict_keys d).
Proof.
  induction d as [|[k0 v0] d IH]; simpl.
  - tauto.
  - destruct (String.eqb k k0) eqn:E.
    + apply String.eqb_eq in E; subst. split; [discriminate | tauto].
    + apply String.eqb_neq in E. rewrite IH. split; intros H; [|tauto].
      intros [->|]; tauto.
Qed.

Lemma dict_set_fresh d k v : dict_find d k = None -> dict_set d k v = d ++ [(k, v)].
Proof.
  induction d as [|[k0 v0] d IH]; simpl; intros H.
  - reflexivity.
  - destruct (String.eqb k k0); [discriminate|]. rewrite IH; auto.
Qed.

Lemma set_all_keys l : forall d k,
  dict_find (set_all d l) k = None <-> dict_find d k = None /\ ~ In k (dict_keys l).
Proof.
  induction l as [|[k0 v0] l IH]; intros d k; simpl.
  - tauto.
  - unfold set_all in *; simpl. rewrite IH, dict_find_set.
    destruct (String.eqb k k0) eqn:E.
    + apply String.eqb_eq in E; subst. split; [intros [? _]; discriminate | tauto].
    + apply String.eqb_neq in E. split; intros [H1 H2]; split; auto.
      intros [->|]; tauto.
Qed.

Lemma set_all_fresh l : forall d,
  NoDup (dict_keys l) ->
  (forall k, In k (dict_keys l) -> dict_find d k = None) ->
  set_all d l = d ++ l.
Proof.
  induction l as [|[k0 v0] l IH]; intros d Hnd Hfresh; simpl.
  - symmetry; apply app_nil_r.
  - unfold set_all in *; simpl in *. inversion Hnd as [|? ? Hnotin Hnd']; subst.
    rewrite dict_set_fresh by auto. rewrite IH; auto.
    + rewrite <- app_assoc. reflexivity.
    + intros k Hk. apply dict_find_None. unfold dict_keys. rewrite map_app.
      simpl. intros Hin. apply in_app_or in Hin. destruct Hin as [Hin|[->|[]]].
      * specialize (Hfresh k (or_intror Hk)). apply dict_find_None in Hfresh. tauto.
      * tauto.
Qed.

End DictFacts.

(** * The CrewAI adapter *)

Section CrewAIFacts.
Import CrewAIRunner.
Context {LLM : Type} (get_llm : PyVal -> LLM).
Context (path_exists : string -> bool) (rglob : string -> string -> list string).
Context (read_text : string -> result string).
Local Open Scope list_scope.

Abbreviation build_crew := (CrewAIRunner.build_crew get_llm path_exists rglob read_text).
Abbreviation _load_knowledge := (CrewAIRunner._load_knowledge path_exists rglob read_text).
Abbreviation load_file := (CrewAIRunner.load_file (LLM := LLM) read_text).
Abbreviation agents_from := (CrewAIRunner.agents_from get_llm).
Abbreviation agents_dict := (CrewAIRunner.agents_dict get_llm).
Abbreviation agent_of := (CrewAIRunner.agent_of get_llm).
Abbreviation scanned_files := (CrewAIRunner.scanned_files path_exists rglob).
Abbreviation sources_from := (CrewAIRunner.sources_from read_text).
Abbreviation St := (State (Native LLM)).

Implicit Types (st : St) (agents : list (string * Agent LLM)).

(** The state after some more objects were constructed. *)
Notation "st +++ objs" := (mkState (crew_config st) (objects st ++ objs))
  (at level 60).

Lemma build_agent_dict (agent_cfg : Dict) st :
  build_agent get_llm (VDict agent_cfg) None st
  = (Ok (agent_of (length (objects st)) agent_cfg),
     st +++ [NAgent (agent_of (length (objects st)) agent_cfg)]).
Proof. reflexivity. Qed.

Lemma agents_loop (agent_items : list (string * Dict)) :
  forall acc st,
    for_each (dicts agent_items) (agent_step get_llm) acc st
    = (Ok (set_all acc (agents_from (length (objects st)) agent_items)),
       st +++ map NAgent (map snd (agents_from (length (objects st)) agent_items))).
Proof.
  induction agent_items as [|[name cfg] rest IH]; intros acc st; simpl.
  - rewrite app_nil_r. destruct st; reflexivity.
  - erewrite bind_Ok.
    2:{ unfold agent_step. erewrite bind_Ok by apply build_agent_dict. reflexivity. }
    rewrite IH. simpl. rewrite length_app, Nat.add_1_r, <- app_assoc. reflexivity.
Qed.

Lemma agents_from_keys (agent_items : list (string * Dict)) : forall id,
  dict_keys (agents_from id agent_items) = dict_keys agent_items.
Proof.
  induction agent_items as [|[name cfg] rest IH]; intros id; simpl; [|rewrite IH];
    reflexivity.
Qed.

Lemma agents_from_length (agent_items : list (string * Dict)) : forall id,
  length (agents_from id agent_items) = length agent_items.
Proof.
  induction agent_items as [|[name cfg] rest IH]; intros id; simpl; [|rewrite IH];
    reflexivity.
Qed.

(** A name that is no key of the [agents] mapping is no key of the
    dictionary of built agents. *)
Lemma agents_dict_None id (agent_items : list (string * Dict)) name :
  dict_find (agents_dict id agent_items) name = None
  <-> ~ In name (dict_keys agent_items).
Proof.
  unfold CrewAIRunner.agents_dict. rewrite set_all_keys, agents_from_keys. simpl. tauto.
Qed.

Lemma agents_dict_NoDup id (agent_items : list (string * Dict)) :
  NoDup (dict_keys agent_items) ->
  agents_dict id agent_items = agents_from id agent_items.
Proof.
  intros H. unfold CrewAIRunner.agents_dict. rewrite set_all_fresh; auto.
  rewrite agents_from_keys; exact H.
Qed.



(** One turn of the task loop on a dictionary entry: a task bound to the
    selected agent, or the error, with nothing constructed. *)
Lemma task_step_dict agents tasks task_name (task_cfg : Dict) st :
  checkable (dict_get task_cfg "agent" VNone) = true ->
  task_step agents tasks (task_name, VDict task_cfg) st
  = match agent_for agents task_cfg with
    | Some agent =>
        (Ok (append tasks (task_of (length (objects st)) task_cfg agent)),
         st +++ [NTask (task_of (length (objects st)) task_cfg agent)])
    | None =>
        (Raise (invalid_agent task_name (dict_get task_cfg "agent" VNone)), st)
    end.
Proof.
  intros Hc. unfold task_step, agent_for, bind, lift, py_get.
  destruct (dict_get task_cfg "agent" VNone) as [|b|z|s|l|d]; simpl in *.
  - reflexivity.
  - destruct b; reflexivity.
  - destruct (Z.eqb z 0); reflexivity.
  - destruct (String.eqb s ""); simpl; [reflexivity|].
    unfold dict_mem. destruct (dict_find agents s); reflexivity.
  - destruct l; [reflexivity | discriminate].
  - destruct d; [reflexivity | discriminate].
Qed.

Lemma tasks_loop agents (task_items : list (string * Dict)) :
  checkable_items task_items ->
  forall acc st,
    for_each (dicts task_items) (task_step agents) acc st
    = (match first_invalid agents task_items with
       | None => Ok (acc ++ tasks_from (length (objects st)) agents task_items)
       | Some (task_name, agent_name) => Raise (invalid_agent task_name agent_name)
       end,
       st +++ map NTask (tasks_from (length (objects st)) agents task_items)).
Proof.
  induction 1 as [|[name cfg] rest Hc _ IH]; intros acc st.
  - simpl. rewrite !app_nil_r. destruct st; reflexivity.
  - change (dicts ((name, cfg) :: rest)) with ((name, VDict cfg) :: dicts rest).
    cbn [for_each first_invalid tasks_from].
    unfold bind at 1. rewrite task_step_dict by exact Hc.
    destruct (agent_for agents cfg) as [agent|]; simpl.
    + rewrite IH. simpl. rewrite length_app, Nat.add_1_r.
      unfold append. rewrite <- !app_assoc. reflexivity.
    + rewrite app_nil_r. destruct st; reflexivity.
Qed.


Lemma tasks_from_length agents (task_items : list (string * Dict)) :
  first_invalid agents task_items = None ->
  forall id, length (tasks_from id agents task_items) = length task_items.
Proof.
  induction task_items as [|[n0 c0] rest IH]; intros Hv id; simpl in *.
  - reflexivity.
  - destruct (agent_for agents c0); [|discriminate]. simpl. rewrite IH; auto.
Qed.

(** Every task that is built is bound to an agent of the dictionary. *)
Lemma tasks_from_bound agents (task_items : list (string * Dict)) :
  forall id task,
    In task (tasks_from id agents task_items) ->
    In (agent task) (dict_values agents).
Proof.
  induction task_items as [|[n0 c0] rest IH]; intros id task H; simpl in *.
  - contradiction.
  - destruct (agent_for agents c0) as [a0|] eqn:E; [|contradiction].
    destruct H as [<-|H]; [|eauto]. simpl.
    unfold agent_for in E. destruct (dict_get c0 "agent" VNone); try discriminate.
    destruct (String.eqb s ""); [discriminate|].
    clear -E. induction agents as [|[k v] agents IHa]; simpl in *; [discriminate|].
    destruct (String.eqb s k); [inversion E; auto | auto].
Qed.

Lemma first_invalid_exists agents (task_items : list (string * Dict)) name cfg :
  In (name, cfg) task_items ->
  agent_for agents cfg = None ->
  exists task_name agent_name,
    first_invalid agents task_items = Some (task_name, agent_name).
Proof.
  induction task_items as [|[n0 c0] rest IH]; intros Hin Hnone; simpl in *.
  - contradiction.
  - destruct (agent_for agents c0) eqn:E.
    + destruct Hin as [Heq|Hin]; [inversion Heq; subst; congruence | auto].
    + eauto.
Qed.

(** ** Knowledge loading *)

Lemma load_file_run sources file_path st :
  (forall e, read_text file_path = Raise e -> is_OSError e = true) ->
  load_file sources file_path st
  = (Ok (sources ++ sources_from (length (objects st)) [file_path]),
     st +++ map NSource (sources_from (length (objects st)) [file_path])).
Proof.
  intros Hos. unfold CrewAIRunner.load_file. simpl. unfold qualifies.
  destruct (read_text file_path) as [content|e].
  - simpl. destruct (String.eqb (strip content) ""); simpl.
    + rewrite !app_nil_r. destruct st; reflexivity.
    + reflexivity.
  - rewrite (Hos e eq_refl). simpl. rewrite !app_nil_r. destruct st; reflexivity.
Qed.

(** A file becomes a source exactly when it reads to text that is not
    all white space. *)
Lemma qualifies_iff file_path :
  qualifies read_text file_path = true
  <-> exists content,
      read_text file_path = Ok content /\ str_all py_isspace content = false.
Proof.
  unfold qualifies. destruct (read_text file_path) as [content|e].
  - simpl. split.
    + intros H. exists content. split; [reflexivity|].
      destruct (str_all py_isspace content) eqn:E; [|reflexivity].
      apply strip_blank in E. rewrite E in H. discriminate.
    + intros (content' & Heq & Hns). inversion Heq; subst content'.
      destruct (String.eqb (strip content) "") eqn:E; [|reflexivity].
      apply String.eqb_eq in E. apply strip_blank in E. congruence.
  - split; [discriminate|]. intros (content & Heq & _). discriminate.
Qed.


Lemma sources_from_cons id file_path rest :
  sources_from id (file_path :: rest)
  = sources_from id [file_path]
    ++ sources_from (id + length (sources_from id [file_path])) rest.
Proof.
  simpl. destruct (qualifies read_text file_path); simpl.
  - rewrite Nat.add_1_r. reflexivity.
  - rewrite Nat.add_0_r. reflexivity.
Qed.

Lemma files_loop (files : list string) :
  fails_only_with_OSError read_text files ->
  forall acc st,
    for_each files load_file acc st
    = (Ok (acc ++ sources_from (length (objects st)) files),
       st +++ map NSource (sources_from (length (objects st)) files)).
Proof.
  induction files as [|f rest IH]; intros Hos acc st.
  - simpl. rewrite !app_nil_r. destruct st; reflexivity.
  - cbn [for_each]. unfold bind. rewrite load_file_run.
    2:{ intros e He. apply (Hos f e); simpl; auto. }
    rewrite IH.
    2:{ intros f' e Hin He. apply (Hos f' e); simpl; auto. }
    rewrite (sources_from_cons _ f rest). cbn [objects crew_config].
    rewrite length_app, length_map, map_app, <- !app_assoc. reflexivity.
Qed.

(** The three nested loops visit the matched files of the existing paths,
    path by path and pattern by pattern. *)
Lemma load_knowledge_scan (knowledge_paths : list string) st :
  _load_knowledge (VList (map VStr knowledge_paths)) st
  = for_each (scanned_files knowledge_paths) load_file [] st.
Proof.
  unfold CrewAIRunner._load_knowledge. erewrite bind_Ok by reflexivity.
  generalize (@nil TextFileKnowledgeSource) as acc. revert st.
  induction knowledge_paths as [|p rest IH]; intros st acc.
  - reflexivity.
  - unfold CrewAIRunner.scanned_files in *.
    change (map VStr (p :: rest)) with (VStr p :: map VStr rest).
    rewrite for_each_cons. unfold bind at 1.
    erewrite (bind_Ok (lift (to_Path (VStr p)))) by reflexivity.
    cbn [filter]. destruct (path_exists p); cbn [negb].
    + rewrite (for_each_flat_map (rglob p)). fold (matched_files rglob p).
      cbn [flat_map]. rewrite for_each_app. unfold bind.
      destruct (for_each (matched_files rglob p) load_file acc st) as [[acc'|e] st1].
      * apply IH.
      * reflexivity.
    + apply IH.
Qed.

Lemma load_knowledge_ok (knowledge_paths : list string) st :
  fails_only_with_OSError read_text (scanned_files knowledge_paths) ->
  _load_knowledge (VList (map VStr knowledge_paths)) st
  = (Ok (sources_from (length (objects st)) (scanned_files knowledge_paths)),
     st +++ map NSource
              (sources_from (length (objects st)) (scanned_files knowledge_paths))).
Proof.
  intros Hos. rewrite load_knowledge_scan, files_loop by exact Hos. reflexivity.
Qed.

(** ** [build_crew], loop after loop *)

Section BuildCrew.
Variables (st : St) (agent_items task_items : list (string * Dict)).
Hypothesis agents_shape :
  dict_get (crew_config st) "agents" (VDict []) = VDict (dicts agent_items).
Hypothesis tasks_shape :
  dict_get (crew_config st) "tasks" (VDict []) = VDict (dicts task_items).
Hypothesis agent_fields : checkable_items task_items.

Abbreviation n := (length (objects st)).
Abbreviation agents := (agents_dict n agent_items).
Abbreviation built_agents := (map NAgent (map snd (agents_from n agent_items))).
Abbreviation built_tasks := (tasks_from (n + length agent_items) agents task_items).

Lemma build_crew_loops :
  build_crew st
  = match first_invalid agents task_items with
    | Some (task_name, agent_name) =>
        (Raise (invalid_agent task_name agent_name),
         st +++ (built_agents ++ map NTask built_tasks))
    | None =>
        (knowledge_paths <- config_get "knowledge_paths" (VList []) ;;
         knowledge_sources <- _load_knowledge knowledge_paths ;;
         process_type <- config_get "process" (VStr "sequential") ;;
         planning <- config_get "planning" (VBool true) ;;
         memory <- config_get "memory" (VBool true) ;;
         verbose <- config_get "verbose" (VBool true) ;;
         construct
           (fun id => mkCrew id (dict_values agents) built_tasks
                        (process_of process_type) planning memory
                        (match knowledge_sources with
                         | [] => None
                         | _ => Some knowledge_sources
                         end)
                        verbose)
           NCrew) (st +++ (built_agents ++ map NTask built_tasks))
    end.
Proof.
  unfold CrewAIRunner.build_crew.
  erewrite bind_Ok by reflexivity. rewrite agents_shape.
  erewrite bind_Ok by reflexivity.
  erewrite bind_Ok by apply agents_loop.
  erewrite bind_Ok by reflexivity. cbn [crew_config]. rewrite tasks_shape.
  erewrite bind_Ok by reflexivity.
  unfold bind at 1. rewrite tasks_loop by exact agent_fields.
  cbn [objects crew_config]. rewrite length_app, !length_map, agents_from_length.
  rewrite <- app_assoc. unfold CrewAIRunner.agents_dict.
  destruct (first_invalid _ task_items) as [[task_name agent_name]|]; reflexivity.
Qed.

Lemma build_crew_raises task_name agent_name :
  first_invalid agents task_items = Some (task_name, agent_name) ->
  build_crew st
  = (Raise (invalid_agent task_name agent_name),
     st +++ (built_agents ++ map NTask built_tasks)).
Proof.
  intros H. rewrite build_crew_loops, H. reflexivity.
Qed.

Lemma build_crew_returns (knowledge_paths : list string) :
  first_invalid agents task_items = None ->
  dict_get (crew_config st) "knowledge_paths" (VList [])
  = VList (map VStr knowledge_paths) ->
  fails_only_with_OSError read_text (scanned_files knowledge_paths) ->
  let id := n + length agent_items + length task_items in
  let sources := sources_from id (scanned_files knowledge_paths) in
  let crew := crew_of (crew_config st) (id + length sources) agents built_tasks sources in
  build_crew st
  = (Ok crew,
     st +++ (built_agents ++ map NTask built_tasks ++ map NSource sources ++ [NCrew crew])).
Proof.
  intros Hvalid Hpaths Hos id sources crew.
  rewrite build_crew_loops, Hvalid.
  erewrite bind_Ok by reflexivity. cbn [crew_config]. rewrite Hpaths.
  erewrite bind_Ok by (apply load_knowledge_ok; exact Hos).
  cbn [objects crew_config].
  assert (Hlen : length (objects st ++ built_agents ++ map NTask built_tasks) = id).
  { rewrite !length_app, !length_map, agents_from_length.
    rewrite tasks_from_length by exact Hvalid. unfold id. lia. }
  rewrite Hlen. fold sources.
  unfold bind, config_get, construct. cbn [objects crew_config].
  rewrite length_app, length_map, Hlen, <- !app_assoc. reflexivity.
Qed.

End BuildCrew.

(** ** What the closed forms say *)

Lemma first_invalid_split agents (task_items : list (string * Dict)) :
  forall task_name agent_name,
    first_invalid agents task_items = Some (task_name, agent_name) ->
    exists earlier task_cfg later,
      task_items = earlier ++ (task_name, task_cfg) :: later
      /\ agent_name = dict_get task_cfg "agent" VNone
      /\ agent_for agents task_cfg = None
      /\ first_invalid agents earlier = None
      /\ forall id, tasks_from id agents task_items = tasks_from id agents earlier.
Proof.
  induction task_items as [|[n0 c0] rest IH]; intros task_name agent_name H;
    simpl in H; [discriminate|].
  destruct (agent_for agents c0) as [a0|] eqn:E.
  - destruct (IH _ _ H) as (earlier & cfg & later & -> & Hv & Hn & Hb & Ht).
    exists ((n0, c0) :: earlier), cfg, later. simpl. rewrite E.
    repeat split; auto. intros id. rewrite Ht. reflexivity.
  - inversion H; subst. exists [], c0, rest. simpl. rewrite E. repeat split; auto.
Qed.

Lemma dict_values_set {V} (d : list (string * V)) k v x :
  In x (dict_values (dict_set d k v)) -> In x (dict_values d) \/ x = v.
Proof.
  induction d as [|[k0 v0] d IH]; simpl.
  - intros [<-|[]]; auto.
  - destruct (String.eqb k k0); simpl; intros [<-|H]; auto.
    destruct (IH H); auto.
Qed.

Lemma dict_values_set_all {V} (l : list (string * V)) : forall d x,
  In x (dict_values (set_all d l)) -> In x (dict_values d) \/ In x (dict_values l).
Proof.
  induction l as [|[k v] l IH]; intros d x H; simpl in *; auto.
  destruct (IH _ _ H) as [H1|H1]; auto.
  destruct (dict_values_set _ _ _ _ H1) as [H2 | ->]; auto.
Qed.


Lemma resolved_valid id (agent_items task_items : list (string * Dict)) :
  (forall task_name task_cfg,
      In (task_name, task_cfg) task_items -> resolves agent_items task_cfg) ->
  checkable_items task_items
  /\ first_invalid (agents_dict id agent_items) task_items = None.
Proof.
  induction task_items as [|[n0 c0] rest IH]; intros H; simpl.
  - split; [constructor | reflexivity].
  - destruct IH as [IH1 IH2]; [intros; eapply H; right; eauto|].
    destruct (H n0 c0 (or_introl eq_refl)) as (name & Hget & Hne & Hin).
    split.
    + constructor; [|exact IH1]. simpl. rewrite Hget. apply orb_true_r.
    + unfold agent_for. rewrite Hget.
      apply String.eqb_neq in Hne. rewrite Hne.
      destruct (dict_find (agents_dict id agent_items) name) eqn:E; [exact IH2|].
      apply agents_dict_None in E. contradiction.
Qed.

(** ** The claims about [build_crew] *)

Lemma unresolved_agent_for id (agent_items : list (string * Dict)) (task_cfg : Dict) :
  (forall name, dict_get task_cfg "agent" VNone = VStr name ->
                ~ In name (dict_keys agent_items)) ->
  agent_for (agents_dict id agent_items) task_cfg = None.
Proof.
  intros H. unfold agent_for.
  destruct (dict_get task_cfg "agent" VNone) as [| | |name| |]; try reflexivity.
  destruct (String.eqb name ""); [reflexivity|].
  apply agents_dict_None. apply H. reflexivity.
Qed.

(** C1 (amended): when the [agent] field of some task is no key of the
    [agents] mapping, [build_crew] raises the configuration error, a
    [ValueError] that names the first task without a usable agent.  By
    then it has constructed one native agent for every entry of [agents]
    and one native task for every task before that one, and nothing else:
    no knowledge source and no crew. *)
Theorem build_crew_unresolved_agent st
    (agent_items task_items : list (string * Dict)) task_name task_cfg :
  dict_get (crew_config st) "agents" (VDict []) = VDict (dicts agent_items) ->
  dict_get (crew_config st) "tasks" (VDict []) = VDict (dicts task_items) ->
  checkable_items task_items ->
  In (task_name, task_cfg) task_items ->
  (forall name, dict_get task_cfg "agent" VNone = VStr name ->
                ~ In name (dict_keys agent_items)) ->
  let n := length (objects st) in
  let agents := agents_dict n agent_items in
  exists earlier first first_cfg later,
    task_items = earlier ++ (first, first_cfg) :: later
    /\ first_invalid agents earlier = None
    /\ agent_for agents first_cfg = None
    /\ build_crew st
       = (Raise (invalid_agent first (dict_get first_cfg "agent" VNone)),
          st +++ (map NAgent (map snd (agents_from n agent_items))
                  ++ map NTask (tasks_from (n + length agent_items) agents earlier)))
    /\ length (tasks_from (n + length agent_items) agents earlier) = length earlier.
Proof.
  intros Hag Htk Hck Hin Hun n agents.
  assert (Hnone : agent_for agents task_cfg = None)
    by (apply unresolved_agent_for; exact Hun).
  destruct (first_invalid_exists agents task_items _ _ Hin Hnone)
    as (first & agent_name & Hfirst).
  destruct (first_invalid_split _ _ _ _ Hfirst)
    as (earlier & first_cfg & later & Hsplit & Hname & Hbad & Hearlier & Htasks).
  exists earlier, first, first_cfg, later.
  repeat split; auto.
  - rewrite (build_crew_raises st agent_items task_items Hag Htk Hck _ _ Hfirst).
    subst agent_name. fold n agents. rewrite Htasks. reflexivity.
  - apply tasks_from_length. exact Hearlier.
Qed.


Lemma falsy_agent_for agents (task_cfg : Dict) :
  truthy (dict_get task_cfg "agent" VNone) = false ->
  agent_for agents task_cfg = None.
Proof.
  unfold agent_for. destruct (dict_get task_cfg "agent" VNone); try reflexivity.
  simpl. destruct (String.eqb s ""); [reflexivity | discriminate].
Qed.

(** C10: a task whose [agent] field is missing or falsy is turned down by
    the loop body with the error it raises for an unknown agent name, and
    with nothing constructed; so [build_crew] raises that error, and every
    task it did construct is bound to an agent it constructed. *)
Theorem build_crew_missing_agent st
    (agent_items task_items : list (string * Dict)) task_name task_cfg :
  dict_get (crew_config st) "agents" (VDict []) = VDict (dicts agent_items) ->
  dict_get (crew_config st) "tasks" (VDict []) = VDict (dicts task_items) ->
  checkable_items task_items ->
  In (task_name, task_cfg) task_items ->
  truthy (dict_get task_cfg "agent" VNone) = false ->
  (forall agents tasks st',
      task_step agents tasks (task_name, VDict task_cfg) st'
      = (Raise (invalid_agent task_name (dict_get task_cfg "agent" VNone)), st'))
  /\ (forall agents tasks st' other (other_cfg : Dict) name,
         dict_get other_cfg "agent" VNone = VStr name ->
         dict_find agents name = None ->
         task_step agents tasks (other, VDict other_cfg) st'
         = (Raise (invalid_agent other (VStr name)), st'))
  /\ (exists first agent_name,
         fst (build_crew st) = Raise (invalid_agent first agent_name))
  /\ (forall task,
         In (NTask task) (objects (snd (build_crew st))) ->
         In (NTask task) (objects st)
         \/ In (NAgent (agent task)) (objects (snd (build_crew st)))).
Proof.
  intros Hag Htk Hck Hin Hfalsy.
  split; [|split; [|split]].
  - intros agents tasks st'. rewrite task_step_dict.
    + rewrite falsy_agent_for by exact Hfalsy. reflexivity.
    + unfold checkable. rewrite Hfalsy. reflexivity.
  - intros agents tasks st' other other_cfg name Hget Hfind.
    rewrite task_step_dict.
    + unfold agent_for. rewrite Hget, Hfind.
      destruct (String.eqb name ""); reflexivity.
    + rewrite Hget. apply orb_true_r.
  - destruct (first_invalid_exists (agents_dict (length (objects st)) agent_items)
                task_items _ _ Hin (falsy_agent_for _ _ Hfalsy))
      as (first & agent_name & Hfirst).
    exists first, agent_name.
    rewrite (build_crew_raises st agent_items task_items Hag Htk Hck _ _ Hfirst).
    reflexivity.
  - destruct (first_invalid_exists (agents_dict (length (objects st)) agent_items)
                task_items _ _ Hin (falsy_agent_for _ _ Hfalsy))
      as (first & agent_name & Hfirst).
    rewrite (build_crew_raises st agent_items task_items Hag Htk Hck _ _ Hfirst).
    cbn [snd objects]. intros task Htask.
    apply in_app_or in Htask. destruct Htask as [Hold|Hnew]; [left; exact Hold|].
    right. apply in_or_app; right. apply in_or_app; left.
    apply in_app_or in Hnew. destruct Hnew as [Habs|Hnew].
    + apply in_map_iff in Habs. destruct Habs as (x & Hx & _). discriminate.
    + apply in_map_iff in Hnew. destruct Hnew as (x & Hx & Hbuilt).
      inversion Hx; subst x. apply tasks_from_bound in Hbuilt.
      apply dict_values_set_all in Hbuilt. destruct Hbuilt as [[]|Hbuilt].
      apply in_map. exact Hbuilt.
Qed.



End CrewAIFacts.

(** * The Strands adapter *)

Section StrandsFacts.
Import StrandsRunner.
Local Open Scope list_scope.

Abbreviation St := (State Native).
Implicit Types (st : St) (parts : list string).

Lemma truthy_get_found (config : Dict) k :
  truthy (dict_get config k VNone) = true ->
  dict_find config k = Some (dict_get config k VNone).
Proof.
  unfold dict_get. destruct (dict_find config k); [reflexivity | discriminate].
Qed.

Lemma purpose_step_run parts st :
  purpose_step parts st = (Ok (parts ++ purpose_section (crew_config st)), st).
Proof.
  unfold purpose_step, purpose_section. erewrite bind_Ok by reflexivity.
  destruct (truthy (dict_get (crew_config st) "description" VNone)) eqn:E.
  - unfold bind, config_index. rewrite (truthy_get_found _ _ E). reflexivity.
  - rewrite app_nil_r. reflexivity.
Qed.

Lemma capability_loop (agent_items : list (string * Dict)) :
  forall parts st,
    for_each (dicts agent_items) capability_step parts st
    = (Ok (parts ++ flat_map capability_block agent_items), st).
Proof.
  induction agent_items as [|[name cfg] rest IH]; intros parts st.
  - simpl. rewrite app_nil_r. reflexivity.
  - change (dicts ((name, cfg) :: rest)) with ((name, VDict cfg) :: dicts rest).
    rewrite for_each_cons. cbn [flat_map capability_block].
    destruct (truthy (dict_get cfg "goal" (VStr ""))) eqn:E;
      (erewrite bind_Ok
         by (unfold capability_step, bind, lift, py_get; rewrite E; reflexivity));
      rewrite IH; unfold append; rewrite <- !app_assoc; reflexivity.
Qed.

Lemma capabilities_step_run (agent_items : list (string * Dict)) parts st :
  dict_get (crew_config st) "agents" (VDict []) = VDict (dicts agent_items) ->
  capabilities_step parts st
  = (Ok (parts ++ capabilities_section agent_items), st).
Proof.
  intros Hag. unfold capabilities_step. erewrite bind_Ok by reflexivity.
  rewrite Hag. destruct agent_items as [|item rest].
  - simpl. rewrite app_nil_r. reflexivity.
  - assert (Ht : truthy (VDict (dicts (item :: rest))) = true) by reflexivity.
    rewrite Ht. erewrite bind_Ok by reflexivity. rewrite capability_loop.
    unfold append, capabilities_section. rewrite <- app_assoc. reflexivity.
Qed.

Lemma task_loop (task_items : list (string * Dict)) :
  string_descriptions task_items ->
  forall parts st,
    for_each (dicts task_items) task_step parts st
    = (Ok (parts ++ task_lines task_items), st).
Proof.
  induction 1 as [|[name cfg] rest [desc Hdesc] _ IH]; intros parts st.
  - simpl. rewrite app_nil_r. reflexivity.
  - change (dicts ((name, cfg) :: rest)) with ((name, VDict cfg) :: dicts rest).
    rewrite for_each_cons. cbn [snd] in Hdesc.
    unfold task_lines. cbn [filter]. unfold has_description at 1.
    unfold description_of at 1. cbn [snd]. rewrite Hdesc.
    destruct (String.eqb desc "") eqn:E; cbn [negb map];
      (erewrite bind_Ok
         by (unfold task_step, bind, lift, py_get; rewrite Hdesc; cbn [truthy];
             rewrite E; reflexivity));
      fold (task_lines rest); rewrite IH.
    + reflexivity.
    + unfold append, task_summary, description_of. cbn [fst snd py_str].
      rewrite Hdesc, <- !app_assoc. reflexivity.
Qed.

Lemma tasks_step_run (task_items : list (string * Dict)) parts st :
  dict_get (crew_config st) "tasks" (VDict []) = VDict (dicts task_items) ->
  string_descriptions task_items ->
  tasks_step parts st = (Ok (parts ++ tasks_section task_items), st).
Proof.
  intros Htk Hdesc. unfold tasks_step. erewrite bind_Ok by reflexivity.
  rewrite Htk. destruct task_items as [|item rest].
  - simpl. rewrite app_nil_r. reflexivity.
  - assert (Ht : truthy (VDict (dicts (item :: rest))) = true) by reflexivity.
    rewrite Ht. erewrite bind_Ok by reflexivity. rewrite task_loop by exact Hdesc.
    unfold append, tasks_section. rewrite <- app_assoc. reflexivity.
Qed.

(** The prompt is its three sections, one after the other. *)
Lemma prompt_parts_closed st (agent_items task_items : list (string * Dict)) :
  dict_get (crew_config st) "agents" (VDict []) = VDict (dicts agent_items) ->
  dict_get (crew_config st) "tasks" (VDict []) = VDict (dicts task_items) ->
  string_descriptions task_items ->
  prompt_parts st
  = (Ok (purpose_section (crew_config st)
         ++ capabilities_section agent_items
         ++ tasks_section task_items), st).
Proof.
  intros Hag Htk Hdesc. unfold prompt_parts.
  erewrite bind_Ok by apply purpose_step_run.
  erewrite bind_Ok by (apply capabilities_step_run; exact Hag).
  rewrite (tasks_step_run task_items) by assumption.
  rewrite <- app_assoc. reflexivity.
Qed.

(** ** Which parts can be a heading *)

Lemma capability_parts (agent_items : list (string * Dict)) part :
  In part (flat_map capability_block agent_items) ->
  (exists role, part = (nl ++ "## " ++ role)%string)
  \/ (exists goal, part = ("Goal: " ++ goal)%string).
Proof.
  induction agent_items as [|[name cfg] rest IH]; simpl; [contradiction|].
  intros [<-|H]; [left; eauto|].
  apply in_app_or in H. destruct H as [H|H]; [|auto].
  destruct (truthy (dict_get cfg "goal" (VStr ""))); [|contradiction].
  destruct H as [<-|[]]. right; eauto.
Qed.

Lemma task_parts (task_items : list (string * Dict)) part :
  In part (task_lines task_items) ->
  exists text, part = (nl ++ "- " ++ text)%string.
Proof.
  unfold task_lines. intros H. apply in_map_iff in H.
  destruct H as (item & <- & _). unfold task_summary. eauto.
Qed.

Lemma capabilities_heading_iff (config : Dict)
    (agent_items task_items : list (string * Dict)) :
  In (nl ++ "# Your Capabilities")%string
     (purpose_section config ++ capabilities_section agent_items
      ++ tasks_section task_items)
  <-> agent_items <> [].
Proof.
  split.
  - intros H Hnil. subst agent_items. simpl in H.
    apply in_app_or in H. destruct H as [H|H].
    + unfold purpose_section in H.
      destruct (truthy (dict_get config "description" VNone)); [|contradiction].
      destruct H as [H|[]]. discriminate H.
    + destruct task_items as [|item rest]; [contradiction|].
      destruct H as [H|H]; [discriminate H|].
      apply task_parts in H. destruct H as [text H]. discriminate H.
  - intros Hne. apply in_or_app; right. apply in_or_app; left.
    destruct agent_items; [congruence|]. left; reflexivity.
Qed.

Lemma tasks_heading_iff (config : Dict)
    (agent_items task_items : list (string * Dict)) :
  In (nl ++ "# Tasks You Can Perform")%string
     (purpose_section config ++ capabilities_section agent_items
      ++ tasks_section task_items)
  <-> task_items <> [].
Proof.
  split.
  - intros H Hnil. subst task_items. simpl in H. rewrite app_nil_r in H.
    apply in_app_or in H. destruct H as [H|H].
    + unfold purpose_section in H.
      destruct (truthy (dict_get config "description" VNone)); [|contradiction].
      destruct H as [H|[]]. discriminate H.
    + destruct agent_items as [|item rest]; [contradiction|].
      destruct H as [H|H]; [discriminate H|].
      apply capability_parts in H. destruct H as [[role H]|[goal H]]; discriminate H.
  - intros Hne. apply in_or_app; right. apply in_or_app; right.
    destruct task_items; [congruence|]. left; reflexivity.
Qed.

Lemma purpose_heading_iff (config : Dict)
    (agent_items task_items : list (string * Dict)) :
  (exists text,
      In ("# Your Purpose" ++ nl ++ text)%string
         (purpose_section config ++ capabilities_section agent_items
          ++ tasks_section task_items))
  <-> truthy (dict_get config "description" VNone) = true.
Proof.
  split.
  - intros [text H]. apply in_app_or in H. destruct H as [H|H].
    + unfold purpose_section in H.
      destruct (truthy (dict_get config "description" VNone)); [reflexivity|].
      contradiction.
    + exfalso. apply in_app_or in H. destruct H as [H|H].
      * destruct agent_items as [|item rest]; [contradiction|].
        destruct H as [H|H]; [discriminate H|].
        apply capability_parts in H.
        destruct H as [[role H]|[goal H]]; discriminate H.
      * destruct task_items as [|item rest]; [contradiction|].
        destruct H as [H|H]; [discriminate H|].
        apply task_parts in H. destruct H as [t H]. discriminate H.
  - intros Ht. exists (py_str (dict_get config "description" VNone)).
    apply in_or_app; left. unfold purpose_section. rewrite Ht. left; reflexivity.
Qed.

(** ** The claims about the prompt *)


(** C5 (amended): the prompt is made of the Purpose, Capabilities and
    Tasks sections, in that order, and a section is left out, heading
    included, exactly when its source (the description, the [agents]
    mapping, the [tasks] mapping) is empty.  The Purpose heading is
    followed by the description and the Capabilities heading by a role
    line; the Tasks heading is followed by the summary lines of the tasks
    that have a description. *)
Theorem prompt_sections st (agent_items task_items : list (string * Dict)) :
  dict_get (crew_config st) "agents" (VDict []) = VDict (dicts agent_items) ->
  dict_get (crew_config st) "tasks" (VDict []) = VDict (dicts task_items) ->
  string_descriptions task_items ->
  let description := dict_get (crew_config st) "description" VNone in
  exists parts,
    prompt_parts st = (Ok parts, st)
    /\ _build_system_prompt st = (Ok (join nl parts), st)
    /\ parts = purpose_section (crew_config st)
               ++ capabilities_section agent_items ++ tasks_section task_items
    /\ ((exists text, In ("# Your Purpose" ++ nl ++ text)%string parts)
        <-> truthy description = true)
    /\ (In (nl ++ "# Your Capabilities")%string parts <-> agent_items <> [])
    /\ (In (nl ++ "# Tasks You Can Perform")%string parts <-> task_items <> [])
    /\ (truthy description = true ->
        purpose_section (crew_config st)
        = [("# Your Purpose" ++ nl ++ py_str description)%string])
    /\ (agent_items <> [] ->
        exists role rest,
          capabilities_section agent_items
          = (nl ++ "# Your Capabilities")%string
              :: (nl ++ "## " ++ role)%string :: rest)
    /\ (task_items <> [] ->
        tasks_section task_items
        = (nl ++ "# Tasks You Can Perform")%string :: task_lines task_items).
Proof.
  intros Hag Htk Hdesc description.
  pose proof (prompt_parts_closed st agent_items task_items Hag Htk Hdesc) as Hparts.
  eexists. split; [exact Hparts|]. split.
  { unfold _build_system_prompt. erewrite bind_Ok by exact Hparts. reflexivity. }
  split; [reflexivity|]. split; [apply purpose_heading_iff|].
  split; [apply capabilities_heading_iff|]. split; [apply tasks_heading_iff|].
  split; [|split].
  - intros Ht. unfold purpose_section. fold description. rewrite Ht. reflexivity.
  - intros Hne. destruct agent_items as [|[name cfg] rest]; [congruence|].
    simpl. eauto.
  - intros Hne. destruct task_items; [congruence|]. reflexivity.
Qed.

(** ** The claim about [run] *)

Context {AgentResult : Type}.
Context (call : Agent -> PyVal -> result AgentResult).
Context (result_str : AgentResult -> string).

(** C4: the prompt is the value under ["input"] when that key is there,
    else the value under ["task"] when that key is there, else [str] of
    the whole mapping; it is a value for every mapping, and it is what the
    agent is called on.  So [{"task": "X"}] gives ["X"], and
    [{"other": "Y"}] gives the text of the mapping, not ["Y"]. *)
Theorem run_prompt_selection (crew : Agent) (inputs : Dict) st :
  (forall v, dict_find inputs "input" = Some v -> input_prompt inputs = v)
  /\ (forall v, dict_find inputs "input" = None ->
                dict_find inputs "task" = Some v -> input_prompt inputs = v)
  /\ (dict_find inputs "input" = None -> dict_find inputs "task" = None ->
      input_prompt inputs = VStr (py_str (VDict inputs)))
  /\ input_prompt [("task", VStr "X")] = VStr "X"
  /\ input_prompt [("other", VStr "Y")] = VStr "{'other': 'Y'}"
  /\ input_prompt [("other", VStr "Y")] <> VStr "Y"
  /\ StrandsRunner.run call result_str crew inputs st
     = (match call crew (input_prompt inputs) with
        | Ok answer => Ok (result_str answer)
        | Raise e => Raise e
        end, st).
Proof.
  unfold input_prompt, dict_get. repeat split.
  - intros v ->. reflexivity.
  - intros v -> ->. reflexivity.
  - intros -> ->. reflexivity.
  - discriminate.
  - unfold StrandsRunner.run, bind, lift, input_prompt, dict_get.
    destruct (call crew _); reflexivity.
Qed.

End StrandsFacts.

(** * Both adapters *)

(** C7: the constructor of each runner raises the dependency error, a
    [RuntimeError], when the import of its SDK fails with an
    [ImportError], and returns when the import succeeds. *)
Theorem constructor_checks_sdk (LLM : Type) (import_module : string -> result unit) :
  (import_module "crewai" = Raise ImportError ->
   forall st,
     CrewAIRunner.__init__ (LLM := LLM) import_module st
     = (Raise (RuntimeError
                 "CrewAI not installed. Install with: pip install crewai[tools]"),
        st))
  /\ (forall u, import_module "crewai" = Ok u ->
      forall st, CrewAIRunner.__init__ (LLM := LLM) import_module st = (Ok tt, st))
  /\ (import_module "strands" = Raise ImportError ->
      forall st,
        StrandsRunner.__init__ import_module st
        = (Raise (RuntimeError
                    "Strands not installed. Install with: pip install strands-agents"),
           st))
  /\ (forall u, import_module "strands" = Ok u ->
      forall st, StrandsRunner.__init__ import_module st = (Ok tt, st)).
Proof.
  unfold CrewAIRunner.__init__, StrandsRunner.__init__.
  repeat split; intros; match goal with H : _ = _ |- _ => rewrite H end; reflexivity.
Qed.

(** C9: no method of either adapter changes the caller's configuration:
    after [build_crew], [run] and the methods they call, the
    configuration object holds what it held before, whether the method
    returned or raised. *)
Theorem config_is_not_mutated :
  (forall LLM get_llm path_exists rglob read_text,
      keeps_config (@CrewAIRunner.build_crew LLM get_llm path_exists rglob read_text))
  /\ (forall LLM kickoff crew inputs,
         keeps_config (@CrewAIRunner.run LLM kickoff crew inputs))
  /\ (forall LLM get_llm agent_config tools,
         keeps_config (@CrewAIRunner.build_agent LLM get_llm agent_config tools))
  /\ (forall LLM task_config agent,
         keeps_config (@CrewAIRunner.build_task LLM task_config agent))
  /\ (forall LLM path_exists rglob read_text knowledge_paths,
         keeps_config
           (@CrewAIRunner._load_knowledge LLM path_exists rglob read_text
              knowledge_paths))
  /\ keeps_config StrandsRunner.build_crew
  /\ keeps_config StrandsRunner._build_system_prompt
  /\ (forall AgentResult call result_str crew inputs,
         keeps_config (@StrandsRunner.run AgentResult call result_str crew inputs))
  /\ (forall agent_config tools,
         keeps_config (StrandsRunner.build_agent agent_config tools))
  /\ (forall task_config agent,
         keeps_config (StrandsRunner.build_task task_config agent)).
Proof.
  repeat split; intros.
  - unfold CrewAIRunner.build_crew, CrewAIRunner._load_knowledge,
      CrewAIRunner.agent_step, CrewAIRunner.task_step, CrewAIRunner.load_file,
      CrewAIRunner.build_agent, CrewAIRunner.build_task.
    frame.
  - unfold CrewAIRunner.run. frame.
  - unfold CrewAIRunner.build_agent. frame.
  - unfold CrewAIRunner.build_task. frame.
  - unfold CrewAIRunner._load_knowledge, CrewAIRunner.load_file. frame.
  - unfold StrandsRunner.build_crew, StrandsRunner._build_system_prompt,
      StrandsRunner._collect_tools, StrandsRunner.prompt_parts,
      StrandsRunner.purpose_step, StrandsRunner.capabilities_step,
      StrandsRunner.tasks_step, StrandsRunner.capability_step,
      StrandsRunner.task_step.
    frame.
  - unfold StrandsRunner._build_system_prompt, StrandsRunner.prompt_parts,
      StrandsRunner.purpose_step, StrandsRunner.capabilities_step,
      StrandsRunner.tasks_step, StrandsRunner.capability_step,
      StrandsRunner.task_step.
    frame.
  - unfold StrandsRunner.run. frame.
  - unfold StrandsRunner.build_agent. frame.
  - unfold StrandsRunner.build_task. frame.
Qed.

(** * The theorems on the sample inputs *)

Section Runs.
Import Samples.
Local Open Scope list_scope.

Abbreviation crewai_state config :=
  (mkState config [] : State (CrewAIRunner.Native unit)).
Abbreviation strands_state config :=
  (mkState config [] : State StrandsRunner.Native).
Abbreviation build := (CrewAIRunner.build_crew no_llm no_path no_files no_text).

(** C1 as it is written fails on [unknown_agent_crew]: the second task
    names no declared agent and the configuration error is raised, but by
    then both agents and the first task have been constructed. *)
Lemma build_crew_partial_build :
  ~ In "editor" (dict_keys agent_items)
  /\ fst (build (crewai_state unknown_agent_crew))
     = Raise (ValueError "Task 'writing_task' has invalid agent: editor")
  /\ length (objects (snd (build (crewai_state unknown_agent_crew)))) = 3
  /\ objects (snd (build (crewai_state unknown_agent_crew)))
     <> objects (crewai_state unknown_agent_crew).
Proof.
  split; [simpl; intuition discriminate|].
  split; [reflexivity|]. split; [reflexivity|]. discriminate.
Qed.

Lemma build_crew_unresolved_agent_witness :
  exists earlier first first_cfg later,
    unknown_agent_items = earlier ++ (first, first_cfg) :: later
    /\ CrewAIRunner.first_invalid
         (CrewAIRunner.agents_dict no_llm 0 agent_items) earlier = None
    /\ CrewAIRunner.agent_for
         (CrewAIRunner.agents_dict no_llm 0 agent_items) first_cfg = None
    /\ build (crewai_state unknown_agent_crew)
       = (Raise (CrewAIRunner.invalid_agent first (dict_get first_cfg "agent" VNone)),
          mkState unknown_agent_crew
            ([] ++ map CrewAIRunner.NAgent
                     (map snd (CrewAIRunner.agents_from no_llm 0 agent_items))
                ++ map CrewAIRunner.NTask
                     (CrewAIRunner.tasks_from (0 + length agent_items)
                        (CrewAIRunner.agents_dict no_llm 0 agent_items) earlier)))
    /\ length (CrewAIRunner.tasks_from (0 + length agent_items)
                 (CrewAIRunner.agents_dict no_llm 0 agent_items) earlier)
       = length earlier.
Proof.
  apply (build_crew_unresolved_agent no_llm no_path no_files no_text
           (crewai_state unknown_agent_crew) agent_items unknown_agent_items
           "writing_task"
           [("description", VStr "Write it down"); ("agent", VStr "editor")]).
  - reflexivity.
  - reflexivity.
  - repeat constructor.
  - simpl; auto.
  - intros name H. inversion H. simpl. intuition discriminate.
Defined.






(** The two tasks of [two_agent_crew] are built in the order of the
    mapping, whatever [context] says, each with its own agent. *)
Example two_agent_crew_tasks :
  match fst (build (crewai_state two_agent_crew)) with
  | Ok crew =>
      map (fun task => (CrewAIRunner.description task,
                        CrewAIRunner.role (CrewAIRunner.agent task)))
        (CrewAIRunner.tasks crew)
      = [(VStr "Look things up", VStr "Researcher");
         (VStr "Write it down", VStr "Writer")]
      /\ CrewAIRunner.process crew = CrewAIRunner.sequential
  | Raise _ => False
  end.
Proof. simpl. split; reflexivity. Qed.


Lemma build_crew_missing_agent_witness :
  (forall agents tasks st',
      CrewAIRunner.task_step (LLM := unit) agents tasks
        ("writing_task", VDict [("description", VStr "Write it down")]) st'
      = (Raise (CrewAIRunner.invalid_agent "writing_task" VNone), st'))
  /\ (forall agents tasks st' other (other_cfg : Dict) name,
         dict_get other_cfg "agent" VNone = VStr name ->
         dict_find agents name = None ->
         CrewAIRunner.task_step (LLM := unit) agents tasks (other, VDict other_cfg) st'
         = (Raise (CrewAIRunner.invalid_agent other (VStr name)), st'))
  /\ (exists first agent_name,
         fst (build (crewai_state missing_agent_crew))
         = Raise (CrewAIRunner.invalid_agent first agent_name))
  /\ (forall task,
         In (CrewAIRunner.NTask task)
            (objects (snd (build (crewai_state missing_agent_crew)))) ->
         In (CrewAIRunner.NTask task) (objects (crewai_state missing_agent_crew))
         \/ In (CrewAIRunner.NAgent (CrewAIRunner.agent task))
               (objects (snd (build (crewai_state missing_agent_crew))))).
Proof.
  apply (build_crew_missing_agent no_llm no_path no_files no_text
           (crewai_state missing_agent_crew) agent_items missing_agent_items
           "writing_task" [("description", VStr "Write it down")]).
  - reflexivity.
  - reflexivity.
  - repeat constructor.
  - simpl; auto.
  - reflexivity.
Defined.

(** C8 fails on the directory [kb]: the file that cannot be opened is
    passed over, and the file that is not text in the expected encoding
    makes the read raise an error that is no [OSError]; the scan ends
    there, with the readable file behind it never loaded, and the error
    leaves [_load_knowledge] and [build_crew].  Without that file the
    same scan returns the one source. *)
Theorem load_knowledge_undecodable_file :
  kb_read_text "kb/binary.md" = Raise UnicodeDecodeError
  /\ is_OSError UnicodeDecodeError = false
  /\ CrewAIRunner._load_knowledge (LLM := unit) kb_exists kb_rglob kb_read_text
       (VList [VStr "kb"]) (crewai_state [])
     = (Raise UnicodeDecodeError, crewai_state [])
  /\ fst (CrewAIRunner.build_crew no_llm kb_exists kb_rglob kb_read_text
            (crewai_state knowledge_crew))
     = Raise UnicodeDecodeError
  /\ fst (CrewAIRunner._load_knowledge (LLM := unit) kb_exists clean_rglob
            kb_read_text (VList [VStr "missing"; VStr "kb"]) (crewai_state []))
     = Ok [CrewAIRunner.mkSource 0 ["kb/notes.md"]].
Proof. repeat split. Qed.

Lemma sample_descriptions : StrandsRunner.string_descriptions task_items.
Proof.
  repeat constructor; simpl; eexists; reflexivity.
Defined.


(** The boundary: a description of 200 characters is there in full, one
    of 201 loses its last character, and both get the marker. *)
Example summary_at_200 :
  StrandsRunner.task_summary ("t", [("description", VStr (fill 200))])
  = (nl ++ "- t: " ++ fill 200 ++ "...")%string
  /\ StrandsRunner.task_summary ("t", [("description", VStr (fill 201))])
     = (nl ++ "- t: " ++ fill 200 ++ "...")%string
  /\ StrandsRunner.task_summary ("t", [("description", VStr "short")])
     = (nl ++ "- t: short...")%string.
Proof. repeat split; vm_compute; reflexivity. Qed.

Example prompt_at_200 :
  fst (StrandsRunner._build_system_prompt
         (strands_state
            [("tasks", VDict [("t", VDict [("description", VStr (fill 200))])])]))
  = Ok (nl ++ "# Tasks You Can Perform" ++ nl ++ nl ++ "- t: " ++ fill 200 ++ "...")%string.
Proof. vm_compute. reflexivity. Qed.

(** C5 as it is written fails on [undescribed_task_crew]: the [tasks]
    mapping is not empty, its one task has no description, and the prompt
    is the Tasks heading with nothing under it. *)
Lemma tasks_heading_without_content :
  fst (StrandsRunner._build_system_prompt (strands_state undescribed_task_crew))
  = Ok (nl ++ "# Tasks You Can Perform")%string
  /\ StrandsRunner.lines (nl ++ "# Tasks You Can Perform")
     = [""%string; "# Tasks You Can Perform"%string]
  /\ StrandsRunner.headings_have_content
       (StrandsRunner.lines (nl ++ "# Tasks You Can Perform")) = false.
Proof. repeat split. Qed.

Lemma undescribed_descriptions :
  StrandsRunner.string_descriptions [("only_task", [("expected_output", VStr "a report")])].
Proof.
  repeat constructor; simpl; eexists; reflexivity.
Defined.

Lemma prompt_sections_witness :
  exists parts,
    StrandsRunner.prompt_parts (strands_state undescribed_task_crew)
    = (Ok parts, strands_state undescribed_task_crew)
    /\ StrandsRunner._build_system_prompt (strands_state undescribed_task_crew)
       = (Ok (join nl parts), strands_state undescribed_task_crew)
    /\ parts = StrandsRunner.purpose_section undescribed_task_crew
               ++ StrandsRunner.capabilities_section []
               ++ StrandsRunner.tasks_section
                    [("only_task", [("expected_output", VStr "a report")])]
    /\ ((exists text, In ("# Your Purpose" ++ nl ++ text)%string parts)
        <-> truthy (dict_get undescribed_task_crew "description" VNone) = true)
    /\ (In (nl ++ "# Your Capabilities")%string parts
        <-> @nil (string * Dict) <> [])
    /\ (In (nl ++ "# Tasks You Can Perform")%string parts
        <-> [("only_task", [("expected_output", VStr "a report")])]
            <> @nil (string * Dict))
    /\ (truthy (dict_get undescribed_task_crew "description" VNone) = true ->
        StrandsRunner.purpose_section undescribed_task_crew
        = [("# Your Purpose" ++ nl
            ++ py_str (dict_get undescribed_task_crew "description" VNone))%string])
    /\ (@nil (string * Dict) <> [] ->
        exists role rest,
          StrandsRunner.capabilities_section []
          = (nl ++ "# Your Capabilities")%string
              :: (nl ++ "## " ++ role)%string :: rest)
    /\ ([("only_task", [("expected_output", VStr "a report")])]
        <> @nil (string * Dict) ->
        StrandsRunner.tasks_section
          [("only_task", [("expected_output", VStr "a report")])]
        = (nl ++ "# Tasks You Can Perform")%string
            :: StrandsRunner.task_lines
                 [("only_task", [("expected_output", VStr "a report")])]).
Proof.
  exact (prompt_sections (strands_state undescribed_task_crew) []
           [("only_task", [("expected_output", VStr "a report")])]
           eq_refl eq_refl undescribed_descriptions).
Defined.

(** The prompt of [two_agent_crew], whole. *)
Example two_agent_crew_prompt :
  fst (StrandsRunner._build_system_prompt (strands_state two_agent_crew))
  = Ok (join nl
          ["# Your Purpose"; "Research and write"; "";
           "# Your Capabilities"; ""; "## Researcher"; "Goal: Find facts"; "";
           "## Writer"; ""; "# Tasks You Can Perform"; "";
           "- research_task: Look things up..."; "";
           "- writing_task: Write it down..."])%string.
Proof. reflexivity. Qed.

(** The constructors with no SDK installed, and with both. *)
Example constructors_run :
  fst (CrewAIRunner.__init__ nothing_installed (crewai_state []))
  = Raise (RuntimeError "CrewAI not installed. Install with: pip install crewai[tools]")
  /\ fst (StrandsRunner.__init__ nothing_installed (strands_state []))
     = Raise (RuntimeError
                "Strands not installed. Install with: pip install strands-agents")
  /\ fst (CrewAIRunner.__init__ all_installed (crewai_state [])) = Ok tt
  /\ fst (StrandsRunner.__init__ all_installed (strands_state [])) = Ok tt.
Proof. repeat split. Qed.

End Runs.

(** * More about the CrewAI adapter *)

Section CrewAIMore.
Import CrewAIRunner.
Context {LLM : Type} (get_llm : PyVal -> LLM).
Context (path_exists : string -> bool) (rglob : string -> string -> list string).
Context (read_text : string -> result string).
Local Open Scope list_scope.

Abbreviation build_crew := (CrewAIRunner.build_crew get_llm path_exists rglob read_text).
Abbreviation _load_knowledge :=
  (CrewAIRunner._load_knowledge (LLM := LLM) path_exists rglob read_text).
Abbreviation load_file := (CrewAIRunner.load_file (LLM := LLM) read_text).
Abbreviation agents_from := (CrewAIRunner.agents_from get_llm).
Abbreviation agents_dict := (CrewAIRunner.agents_dict get_llm).
Abbreviation agent_of := (CrewAIRunner.agent_of get_llm).
Abbreviation scanned_files := (CrewAIRunner.scanned_files path_exists rglob).
Abbreviation sources_from := (CrewAIRunner.sources_from read_text).
Abbreviation qualifies := (CrewAIRunner.qualifies read_text).
Abbreviation St := (State (Native LLM)).

Implicit Types (st : St).

(** ** What the sources are *)





(** X2: knowledge paths that do not exist are never scanned: the result
    is the empty list and nothing is constructed, whatever the file system
    would answer for them. *)
Theorem load_knowledge_missing_paths (knowledge_paths : list string) st :
  (forall knowledge_path,
      In knowledge_path knowledge_paths -> path_exists knowledge_path = false) ->
  _load_knowledge (VList (map VStr knowledge_paths)) st = (Ok [], st).
Proof.
  intros Hmissing. rewrite load_knowledge_scan.
  assert (Hnone : scanned_files knowledge_paths = []).
  { unfold CrewAIRunner.scanned_files.
    induction knowledge_paths as [|p rest IH]; simpl; [reflexivity|].
    rewrite (Hmissing p (or_introl eq_refl)). apply IH.
    intros q Hq. apply Hmissing. right; exact Hq. }
  rewrite Hnone. reflexivity.
Qed.


(** ** What a successful build holds *)

(** The hypotheses under which [build_crew] returns: the mappings have
    the schema's shape, every task names a declared agent, and no
    knowledge file fails to read with anything but an [OSError]. *)
Section Built.
Variables (st : St) (agent_items task_items : list (string * Dict)).
Variable knowledge_paths : list string.
Hypothesis agents_shape :
  dict_get (crew_config st) "agents" (VDict []) = VDict (dicts agent_items).
Hypothesis tasks_shape :
  dict_get (crew_config st) "tasks" (VDict []) = VDict (dicts task_items).
Hypothesis agent_names : NoDup (dict_keys agent_items).
Hypothesis tasks_resolve :
  forall task_name task_cfg,
    In (task_name, task_cfg) task_items -> resolves agent_items task_cfg.
Hypothesis paths_shape :
  dict_get (crew_config st) "knowledge_paths" (VList [])
  = VList (map VStr knowledge_paths).
Hypothesis reads : fails_only_with_OSError read_text (scanned_files knowledge_paths).

Abbreviation n := (length (objects st)).
Abbreviation built_agents := (map snd (agents_from n agent_items)).
Abbreviation built_tasks :=
  (tasks_from (n + length agent_items) (agents_from n agent_items) task_items).
Abbreviation built_sources :=
  (sources_from (n + length agent_items + length task_items)
     (scanned_files knowledge_paths)).
Abbreviation built_crew :=
  (crew_of (crew_config st)
     (n + length agent_items + length task_items + length built_sources)
     (agents_from n agent_items) built_tasks built_sources).

Lemma build_crew_built :
  build_crew st
  = (Ok built_crew,
     mkState (crew_config st)
       (objects st ++ map NAgent built_agents ++ map NTask built_tasks
        ++ map NSource built_sources ++ [NCrew built_crew])).
Proof.
  destruct (resolved_valid get_llm path_exists rglob read_text n agent_items
              task_items tasks_resolve) as [Hck Hvalid].
  pose proof (build_crew_returns get_llm path_exists rglob read_text st
                agent_items task_items agents_shape tasks_shape Hck
                knowledge_paths Hvalid paths_shape reads) as H.
  cbv zeta in H. rewrite (agents_dict_NoDup get_llm n agent_items agent_names) in H.
  exact H.
Qed.


End Built.




(** ** Configurations outside the schema *)

Lemma dicts_app (items more : list (string * Dict)) :
  dicts (items ++ more) = dicts items ++ dicts more.
Proof. apply map_app. Qed.

(** X7: an [agent] field that is a non-empty list or dictionary is not
    turned down with the configuration error: the membership test on the
    unhashable value raises [TypeError], after the agents and the tasks
    before it were constructed. *)
Theorem build_crew_unhashable_agent st
    (agent_items earlier later : list (string * Dict)) task_name task_cfg :
  dict_get (crew_config st) "agents" (VDict []) = VDict (dicts agent_items) ->
  dict_get (crew_config st) "tasks" (VDict [])
  = VDict (dicts (earlier ++ (task_name, task_cfg) :: later)) ->
  (forall name cfg, In (name, cfg) earlier -> resolves agent_items cfg) ->
  truthy (dict_get task_cfg "agent" VNone) = true ->
  checkable (dict_get task_cfg "agent" VNone) = false ->
  build_crew st
  = (Raise TypeError,
     mkState (crew_config st)
       (objects st
        ++ map NAgent (map snd (agents_from (length (objects st)) agent_items))
        ++ map NTask
             (tasks_from (length (objects st) + length agent_items)
                (agents_dict (length (objects st)) agent_items) earlier))).
Proof.
  intros Hag Htk Hres Htruthy Hunhashable.
  destruct (resolved_valid get_llm path_exists rglob read_text
              (length (objects st)) agent_items earlier Hres) as [Hck Hvalid].
  unfold CrewAIRunner.build_crew.
  erewrite bind_Ok by reflexivity. rewrite Hag.
  erewrite bind_Ok by reflexivity.
  erewrite bind_Ok by apply agents_loop.
  erewrite bind_Ok by reflexivity. cbn [crew_config]. rewrite Htk.
  erewrite bind_Ok by reflexivity.
  rewrite dicts_app.
  set (agents := set_all [] (agents_from (length (objects st)) agent_items)).
  set (st1 := mkState (crew_config st) _).
  assert (Hloop :
    for_each (dicts earlier) (task_step agents) [] st1
    = (Ok (tasks_from (length (objects st) + length agent_items) agents earlier),
       mkState (crew_config st)
         (objects st1
          ++ map NTask
               (tasks_from (length (objects st) + length agent_items) agents
                  earlier)))).
  { rewrite tasks_loop by exact Hck. unfold st1. cbn [objects crew_config].
    rewrite length_app, !length_map, agents_from_length.
    unfold agents. fold (agents_dict (length (objects st)) agent_items).
    rewrite Hvalid. reflexivity. }
  assert (Hstep :
    forall tasks st2,
      task_step agents tasks (task_name, VDict task_cfg) st2 = (Raise TypeError, st2)).
  { intros tasks st2. unfold task_step, bind, lift, py_get.
    unfold checkable in Hunhashable. rewrite Htruthy in Hunhashable.
    destruct (dict_get task_cfg "agent" VNone); try discriminate;
      rewrite Htruthy; reflexivity. }
  erewrite bind_Raise.
  2:{ rewrite for_each_app. erewrite bind_Ok by exact Hloop.
      change (dicts ((task_name, task_cfg) :: later))
        with ((task_name, VDict task_cfg) :: dicts later).
      rewrite for_each_cons. erewrite bind_Raise by apply Hstep. reflexivity. }
  unfold st1. cbn [objects]. rewrite <- app_assoc. reflexivity.
Qed.

(** X8: when [agents] holds something that is no mapping, [build_crew]
    raises [AttributeError] with nothing constructed; when [tasks] does,
    it raises [AttributeError] after every agent was constructed. *)
Theorem build_crew_not_a_mapping st :
  (forall v,
      dict_get (crew_config st) "agents" (VDict []) = v ->
      (forall d, v <> VDict d) ->
      build_crew st = (Raise AttributeError, st))
  /\ (forall (agent_items : list (string * Dict)) v,
         dict_get (crew_config st) "agents" (VDict []) = VDict (dicts agent_items) ->
         dict_get (crew_config st) "tasks" (VDict []) = v ->
         (forall d, v <> VDict d) ->
         build_crew st
         = (Raise AttributeError,
            mkState (crew_config st)
              (objects st
               ++ map NAgent
                    (map snd (agents_from (length (objects st)) agent_items))))).
Proof.
  split.
  - intros v Hget Hnot. unfold CrewAIRunner.build_crew.
    erewrite bind_Ok by reflexivity. rewrite Hget.
    erewrite bind_Raise; [reflexivity|].
    destruct v; try reflexivity. exfalso. eapply Hnot. reflexivity.
  - intros agent_items v Hag Hget Hnot. unfold CrewAIRunner.build_crew.
    erewrite bind_Ok by reflexivity. rewrite Hag.
    erewrite bind_Ok by reflexivity.
    erewrite bind_Ok by apply agents_loop.
    erewrite bind_Ok by reflexivity. cbn [crew_config]. rewrite Hget.
    erewrite bind_Raise; [reflexivity|].
    destruct v; try reflexivity. exfalso. eapply Hnot. reflexivity.
Qed.

(** ** Building twice *)







End CrewAIMore.

(** * More about the Strands adapter *)

(** A loop whose body neither reads nor changes the state. *)
Lemma for_each_pure {Obj A B} (body : B -> A -> M Obj B) :
  (forall acc x st st', body acc x st' = (fst (body acc x st), st')) ->
  forall xs acc st st',
    for_each xs body acc st' = (fst (for_each xs body acc st), st').
Proof.
  intros Hbody. induction xs as [|x xs IH]; intros acc st st'.
  - reflexivity.
  - rewrite !for_each_cons. unfold bind. rewrite (Hbody acc x st st').
    destruct (body acc x st) as [[acc'|e] st0]; simpl; [apply IH | reflexivity].
Qed.

(** Two states on which a computation gives one result and which it
    leaves as they are. *)
Lemma agree_bind {Obj A B} (st1 st2 : State Obj) (m : M Obj A) (f : A -> M Obj B) :
  agree st1 st2 m -> (forall a, agree st1 st2 (f a)) -> agree st1 st2 (bind m f).
Proof.
  unfold agree, bind. intros [H1 H2] Hf. rewrite H1.
  destruct (m st2) as [[a|e] st0]; simpl in *.
  - inversion H2; subst st0. apply Hf.
  - inversion H2; subst st0. split; reflexivity.
Qed.

Section StrandsMore.
Import StrandsRunner.
Local Open Scope list_scope.

Abbreviation St := (State Native).
Implicit Types (st : St) (parts : list string).

Lemma capability_step_pure parts item st st' :
  capability_step parts item st' = (fst (capability_step parts item st), st').
Proof.
  destruct item as [name cfg]. unfold capability_step, bind, lift, py_get, ret.
  destruct cfg; try reflexivity.
  destruct (truthy (dict_get d "goal" (VStr ""))); reflexivity.
Qed.

Lemma task_step_pure parts item st st' :
  task_step parts item st' = (fst (task_step parts item st), st').
Proof.
  destruct item as [name cfg]. unfold task_step, bind, lift, py_get, ret.
  destruct cfg; try reflexivity.
  destruct (truthy (dict_get d "description" (VStr ""))); [|reflexivity].
  destruct (py_slice_to 200 (dict_get d "description" (VStr ""))); reflexivity.
Qed.

(** X10: the prompt is made from the [description], [agents] and
    [tasks] keys alone: two configurations that agree on these three give
    the same prompt, or the same error, whatever else they hold
    ([knowledge_paths], [process], [planning], [memory]), and making it
    constructs nothing. *)
Theorem prompt_reads_three_keys st1 st2 :
  dict_get (crew_config st1) "description" VNone
  = dict_get (crew_config st2) "description" VNone ->
  dict_get (crew_config st1) "agents" (VDict [])
  = dict_get (crew_config st2) "agents" (VDict []) ->
  dict_get (crew_config st1) "tasks" (VDict [])
  = dict_get (crew_config st2) "tasks" (VDict []) ->
  fst (_build_system_prompt st1) = fst (_build_system_prompt st2)
  /\ snd (_build_system_prompt st1) = st1.
Proof.
  intros Hd Ha Ht.
  assert (Hpurpose : forall parts,
    purpose_step parts st1 = (fst (purpose_step parts st2), st1)).
  { intros parts. unfold purpose_step, bind, config_get, config_index, ret.
    rewrite Hd.
    destruct (truthy (dict_get (crew_config st2) "description" VNone)) eqn:E;
      [|reflexivity].
    rewrite (truthy_get_found (crew_config st2) _ E).
    rewrite <- Hd in E. rewrite (truthy_get_found (crew_config st1) _ E).
    rewrite Hd. reflexivity. }
  assert (Hcaps : forall parts,
    capabilities_step parts st1 = (fst (capabilities_step parts st2), st1)).
  { intros parts. unfold capabilities_step, bind, config_get, lift. rewrite Ha.
    destruct (truthy (dict_get (crew_config st2) "agents" (VDict [])));
      [|reflexivity].
    destruct (py_items (dict_get (crew_config st2) "agents" (VDict [])));
      [|reflexivity].
    apply (for_each_pure capability_step capability_step_pure). }
  assert (Htasks : forall parts,
    tasks_step parts st1 = (fst (tasks_step parts st2), st1)).
  { intros parts. unfold tasks_step, bind, config_get, lift. rewrite Ht.
    destruct (truthy (dict_get (crew_config st2) "tasks" (VDict [])));
      [|reflexivity].
    destruct (py_items (dict_get (crew_config st2) "tasks" (VDict [])));
      [|reflexivity].
    apply (for_each_pure task_step task_step_pure). }
  assert (Hkeep : forall parts,
    purpose_step parts st2 = (fst (purpose_step parts st2), st2)
    /\ capabilities_step parts st2 = (fst (capabilities_step parts st2), st2)
    /\ tasks_step parts st2 = (fst (tasks_step parts st2), st2)).
  { intros parts. repeat split.
    - unfold purpose_step, bind, config_get, config_index, ret.
      destruct (truthy (dict_get (crew_config st2) "description" VNone)) eqn:E;
        [|reflexivity].
      rewrite (truthy_get_found (crew_config st2) _ E). reflexivity.
    - unfold capabilities_step, bind, config_get, lift.
      destruct (truthy (dict_get (crew_config st2) "agents" (VDict [])));
        [|reflexivity].
      destruct (py_items (dict_get (crew_config st2) "agents" (VDict [])));
        [|reflexivity].
      apply (for_each_pure capability_step capability_step_pure).
    - unfold tasks_step, bind, config_get, lift.
      destruct (truthy (dict_get (crew_config st2) "tasks" (VDict [])));
        [|reflexivity].
      destruct (py_items (dict_get (crew_config st2) "tasks" (VDict [])));
        [|reflexivity].
      apply (for_each_pure task_step task_step_pure). }
  assert (Hprompt : agree st1 st2 _build_system_prompt).
  { unfold _build_system_prompt, prompt_parts.
    apply agree_bind; [|intros parts; split; reflexivity].
    apply agree_bind; [split; [apply Hpurpose | apply Hkeep]|].
    intros parts1. apply agree_bind; [split; [apply Hcaps | apply Hkeep]|].
    intros parts2. split; [apply Htasks | apply Hkeep]. }
  destruct Hprompt as [H1 _]. rewrite H1. split; reflexivity.
Qed.

(** X11: [build_crew] folds the whole crew into one object.  On every
    configuration of the schema's shape it returns, whether or not the
    tasks name declared agents, and constructs exactly one agent, with the
    synthesized prompt and no tools; no object is made per agent or per
    task. *)
Theorem build_crew_single_agent st (agent_items task_items : list (string * Dict)) :
  dict_get (crew_config st) "agents" (VDict []) = VDict (dicts agent_items) ->
  dict_get (crew_config st) "tasks" (VDict []) = VDict (dicts task_items) ->
  string_descriptions task_items ->
  exists built,
    build_crew st
    = (Ok built, mkState (crew_config st) (objects st ++ [NAgent built]))
    /\ agent_id built = length (objects st)
    /\ tools built = []
    /\ fst (_build_system_prompt st) = Ok (system_prompt built)
    /\ system_prompt built
       = join nl (purpose_section (crew_config st)
                  ++ capabilities_section agent_items
                  ++ tasks_section task_items).
Proof.
  intros Hag Htk Hdesc.
  pose proof (prompt_parts_closed st agent_items task_items Hag Htk Hdesc) as Hparts.
  assert (Hprompt : _build_system_prompt st
                    = (Ok (join nl (purpose_section (crew_config st)
                                    ++ capabilities_section agent_items
                                    ++ tasks_section task_items)), st)).
  { unfold _build_system_prompt. erewrite bind_Ok by exact Hparts. reflexivity. }
  eexists. split.
  { unfold build_crew. erewrite bind_Ok by exact Hprompt.
    erewrite bind_Ok by reflexivity. reflexivity. }
  rewrite Hprompt. repeat split.
Qed.

(** X12: the Capabilities section is, after its heading and in the order
    of the [agents] mapping, one block per agent: a line with its role,
    which is the agent's name when the entry has no role, and then a
    Goal line when the goal is non-empty. *)
Theorem capability_blocks st (agent_items task_items : list (string * Dict)) :
  dict_get (crew_config st) "agents" (VDict []) = VDict (dicts agent_items) ->
  dict_get (crew_config st) "tasks" (VDict []) = VDict (dicts task_items) ->
  string_descriptions task_items ->
  exists earlier later,
    prompt_parts st = (Ok (earlier ++ capabilities_section agent_items ++ later), st)
    /\ (agent_items <> [] ->
        capabilities_section agent_items
        = (nl ++ "# Your Capabilities")%string
            :: flat_map
                 (fun item =>
                    (nl ++ "## "
                     ++ py_str (dict_get (snd item) "role" (VStr (fst item))))%string
                    :: (if truthy (dict_get (snd item) "goal" (VStr ""))
                        then [("Goal: "
                               ++ py_str (dict_get (snd item) "goal" (VStr "")))%string]
                        else []))
                 agent_items)
    /\ forall agent_name agent_cfg,
        In (agent_name, agent_cfg) agent_items ->
        In (nl ++ "## " ++ py_str (dict_get agent_cfg "role" (VStr agent_name)))%string
           (capabilities_section agent_items)
        /\ (dict_find agent_cfg "role" = None ->
            In (nl ++ "## " ++ agent_name)%string (capabilities_section agent_items))
        /\ (truthy (dict_get agent_cfg "goal" (VStr "")) = true ->
            In ("Goal: " ++ py_str (dict_get agent_cfg "goal" (VStr "")))%string
               (capabilities_section agent_items)).
Proof.
  intros Hag Htk Hdesc.
  exists (purpose_section (crew_config st)), (tasks_section task_items).
  split; [apply prompt_parts_closed; assumption|]. split.
  { intros Hne. destruct agent_items as [|item rest]; [congruence|].
    unfold capabilities_section. f_equal. apply flat_map_ext.
    intros [name cfg]. reflexivity. }
  intros agent_name agent_cfg Hin.
  assert (Hblock : forall part,
             In part (capability_block (agent_name, agent_cfg)) ->
             In part (capabilities_section agent_items)).
  { intros part Hpart. destruct agent_items as [|item rest]; [contradiction|].
    right. apply in_flat_map. exists (agent_name, agent_cfg). auto. }
  split; [apply Hblock; left; reflexivity|]. split.
  - intros Hnone. apply Hblock. left. unfold dict_get. rewrite Hnone. reflexivity.
  - intros Hgoal. apply Hblock. right. rewrite Hgoal. left; reflexivity.
Qed.

(** X13: a configuration whose description, [agents] and [tasks] are
    all absent or falsy, of whatever type, gives the empty prompt, and
    [build_crew] still constructs its agent, with that prompt. *)
Theorem empty_prompt st :
  truthy (dict_get (crew_config st) "description" VNone) = false ->
  truthy (dict_get (crew_config st) "agents" (VDict [])) = false ->
  truthy (dict_get (crew_config st) "tasks" (VDict [])) = false ->
  _build_system_prompt st = (Ok ""%string, st)
  /\ build_crew st
     = (Ok (mkAgent (length (objects st)) "" []),
        mkState (crew_config st)
          (objects st ++ [NAgent (mkAgent (length (objects st)) "" [])])).
Proof.
  intros Hd Ha Ht.
  assert (Hprompt : _build_system_prompt st = (Ok ""%string, st)).
  { unfold _build_system_prompt, prompt_parts.
    erewrite bind_Ok.
    2:{ erewrite bind_Ok by apply purpose_step_run.
        erewrite bind_Ok.
        2:{ unfold capabilities_step. erewrite bind_Ok by reflexivity.
            rewrite Ha. reflexivity. }
        unfold tasks_step. erewrite bind_Ok by reflexivity.
        rewrite Ht. reflexivity. }
    unfold purpose_section. rewrite Hd. reflexivity. }
  split; [exact Hprompt|].
  unfold build_crew. erewrite bind_Ok by exact Hprompt. reflexivity.
Qed.

(** X14: a task description that is truthy but neither a string nor a
    list cannot be sliced: the prompt, and with it [build_crew], raises
    [TypeError], and nothing is constructed. *)
Theorem unsliceable_description st
    (agent_items earlier later : list (string * Dict)) task_name task_cfg :
  dict_get (crew_config st) "agents" (VDict []) = VDict (dicts agent_items) ->
  dict_get (crew_config st) "tasks" (VDict [])
  = VDict (dicts (earlier ++ (task_name, task_cfg) :: later)) ->
  string_descriptions earlier ->
  truthy (dict_get task_cfg "description" (VStr "")) = true ->
  (forall text, dict_get task_cfg "description" (VStr "") <> VStr text) ->
  (forall l, dict_get task_cfg "description" (VStr "") <> VList l) ->
  _build_system_prompt st = (Raise TypeError, st)
  /\ build_crew st = (Raise TypeError, st).
Proof.
  intros Hag Htk Hdesc Htruthy Hstr Hlist.
  assert (Hprompt : _build_system_prompt st = (Raise TypeError, st)).
  { unfold _build_system_prompt, prompt_parts.
    erewrite bind_Raise; [reflexivity|].
    erewrite bind_Ok by apply purpose_step_run.
    erewrite bind_Ok by (apply capabilities_step_run; exact Hag).
    unfold tasks_step. erewrite bind_Ok by reflexivity. rewrite Htk.
    assert (Hnonempty :
      truthy (VDict (dicts (earlier ++ (task_name, task_cfg) :: later))) = true)
      by (destruct earlier; reflexivity).
    rewrite Hnonempty. erewrite bind_Ok by reflexivity.
    unfold dicts. rewrite map_app. rewrite for_each_app.
    erewrite bind_Ok by (apply task_loop; exact Hdesc).
    cbn [map fst snd]. rewrite for_each_cons.
    erewrite bind_Raise; [reflexivity|].
    unfold task_step, bind, lift, py_get. rewrite Htruthy.
    destruct (dict_get task_cfg "description" (VStr "")) as [| | |text|l|];
      try reflexivity.
    - exfalso. eapply Hstr. reflexivity.
    - exfalso. eapply Hlist. reflexivity. }
  split; [exact Hprompt|].
  unfold build_crew. erewrite bind_Raise by exact Hprompt. reflexivity.
Qed.

End StrandsMore.

(** * The pytest plugin *)

Section CollectionFacts.
Import Plugin.
Local Open Scope list_scope.

Lemma has_keyword_In (item : Item) (name : string) :
  has_keyword item name = true <-> In name (keywords item).
Proof.
  unfold has_keyword. rewrite existsb_exists. split.
  - intros (k & Hin & Heq). apply String.eqb_eq in Heq. subst. exact Hin.
  - intros Hin. exists name. split; [exact Hin | apply String.eqb_refl].
Qed.

Lemma has_keyword_add (item : Item) (marker : Mark) (name : string) :
  has_keyword (add_marker item marker) name
  = has_keyword item name || String.eqb name (mark_name marker).
Proof.
  unfold add_marker, has_keyword at 1. cbn [keywords].
  destruct (has_keyword item (mark_name marker)) eqn:E.
  - fold (has_keyword item name).
    destruct (String.eqb name (mark_name marker)) eqn:E'.
    + apply String.eqb_eq in E'. subst. rewrite E. reflexivity.
    + rewrite orb_false_r. reflexivity.
  - rewrite existsb_app. fold (has_keyword item name). simpl.
    rewrite orb_false_r. reflexivity.
Qed.

(** A skip marker does not change which frameworks a test is for. *)
Lemma test_frameworks_add_skip (item : Item) (reason : string) :
  test_frameworks (add_marker item (skip reason)) = test_frameworks item.
Proof.
  unfold test_frameworks, framework_markers. cbn [filter].
  rewrite !has_keyword_add. cbn [skip mark_name String.eqb Ascii.eqb Bool.eqb].
  rewrite !orb_false_r. reflexivity.
Qed.

Lemma collection_step_markers e2e_enabled framework_filter (item : Item) :
  nodeid (collection_step e2e_enabled framework_filter item) = nodeid item
  /\ own_markers (collection_step e2e_enabled framework_filter item)
     = own_markers item
       ++ (if skipped_for_e2e e2e_enabled item then [skip_e2e] else [])
       ++ (if skipped_for_framework framework_filter item
           then [skip_framework framework_filter] else []).
Proof.
  unfold collection_step, skipped_for_e2e, skipped_for_framework.
  destruct (has_keyword item "e2e" && negb e2e_enabled);
    destruct framework_filter as [name|]; cbn [negb];
    try (destruct (String.eqb name ""); cbn [negb andb]);
    try (unfold skip_e2e; rewrite test_frameworks_add_skip);
    try (destruct (match test_frameworks item with [] => false | _ => true end
                   && negb (existsb (String.eqb name) (test_frameworks item))));
    cbn [add_marker own_markers nodeid andb];
    rewrite ?app_nil_r, <- ?app_assoc; split; reflexivity.
Qed.

(** X15: the hook drops, reorders and unmarks nothing: the collected
    tests stay the same tests in the same order, each keeps its keywords
    and its own markers, and gains at most two markers, both skips, after
    the ones it had. *)
Theorem collection_keeps_tests e2e_enabled framework_filter (items : list Item) :
  map nodeid (pytest_collection_modifyitems e2e_enabled framework_filter items)
  = map nodeid items
  /\ forall i item,
      nth_error items i = Some item ->
      exists item' added,
        nth_error (pytest_collection_modifyitems e2e_enabled framework_filter items) i
        = Some item'
        /\ own_markers item' = own_markers item ++ added
        /\ length added <= 2
        /\ (forall marker, In marker added -> mark_name marker = "skip"%string)
        /\ (forall name, In name (keywords item) -> In name (keywords item')).
Proof.
  unfold pytest_collection_modifyitems. split.
  - rewrite map_map. apply map_ext. intros item.
    apply (collection_step_markers e2e_enabled framework_filter item).
  - intros i item Hi.
    destruct (collection_step_markers e2e_enabled framework_filter item) as [_ Hm].
    eexists _, _. split; [apply map_nth_error; exact Hi|].
    split; [exact Hm|]. split; [|split].
    + destruct (skipped_for_e2e e2e_enabled item),
        (skipped_for_framework framework_filter item); simpl; lia.
    + intros marker Hin.
      destruct (skipped_for_e2e e2e_enabled item),
        (skipped_for_framework framework_filter item); simpl in Hin;
        intuition (subst; reflexivity).
    + intros name Hin. apply has_keyword_In. apply has_keyword_In in Hin.
      unfold collection_step.
      destruct (has_keyword item "e2e" && negb e2e_enabled);
        destruct framework_filter as [f|]; try (destruct (String.eqb f ""));
        repeat match goal with
               | |- context [if ?b then _ else _] => destruct b
               end;
        rewrite ?has_keyword_add, ?Hin; reflexivity.
Qed.

(** X16: a test gets the end-to-end skip exactly when it carries the
    [e2e] keyword and [--e2e] was not given; the [--framework] option has
    no part in it. *)
Theorem collection_e2e_gate e2e_enabled framework_filter (item : Item) :
  In skip_e2e (own_markers (collection_step e2e_enabled framework_filter item))
  <-> In skip_e2e (own_markers item)
      \/ (In "e2e"%string (keywords item) /\ e2e_enabled = false).
Proof.
  destruct (collection_step_markers e2e_enabled framework_filter item) as [_ ->].
  rewrite !in_app_iff, <- has_keyword_In. unfold skipped_for_e2e.
  destruct (has_keyword item "e2e"), e2e_enabled; cbn [andb negb];
    destruct (skipped_for_framework framework_filter item); simpl;
    unfold skip_e2e, skip_framework, skip;
    intuition (try discriminate; auto).
Qed.

(** X17: with [--framework=name], a test gets the framework skip
    exactly when it carries one of the keywords [crewai], [langgraph],
    [strands] and none of those it carries is [name]: a test for no
    framework always runs, and a name that is no framework skips every
    test that is for one.  Without the option, or with the empty name, no
    test gets it. *)
Theorem collection_framework_filter e2e_enabled (name : string) (item : Item) :
  (name <> ""%string ->
   (In (skip_framework (Some name))
       (own_markers (collection_step e2e_enabled (Some name) item))
    <-> In (skip_framework (Some name)) (own_markers item)
        \/ ((exists framework,
                In framework framework_markers /\ In framework (keywords item))
            /\ ~ (In name framework_markers /\ In name (keywords item)))))
  /\ own_markers (collection_step e2e_enabled None item)
     = own_markers (collection_step e2e_enabled (Some ""%string) item)
  /\ own_markers (collection_step e2e_enabled None item)
     = own_markers item
       ++ (if skipped_for_e2e e2e_enabled item then [skip_e2e] else []).
Proof.
  split; [|split].
  - intros Hne.
    destruct (collection_step_markers e2e_enabled (Some name) item) as [_ ->].
    assert (Hfound : forall k,
               In k (test_frameworks item)
               <-> In k framework_markers /\ In k (keywords item)).
    { intros k. unfold test_frameworks. rewrite filter_In, has_keyword_In. tauto. }
    assert (Hcond : skipped_for_framework (Some name) item = true
                    <-> (exists framework,
                            In framework framework_markers
                            /\ In framework (keywords item))
                        /\ ~ (In name framework_markers /\ In name (keywords item))).
    { unfold skipped_for_framework. apply String.eqb_neq in Hne. rewrite Hne.
      cbn [negb andb]. rewrite andb_true_iff, negb_true_iff. split.
      - intros [Hsome Hnot]. split.
        + destruct (test_frameworks item) as [|k rest] eqn:E; [discriminate|].
          exists k. apply Hfound. left; reflexivity.
        + intros Hin. apply Hfound in Hin.
          assert (existsb (String.eqb name) (test_frameworks item) = true).
          { apply existsb_exists. exists name. split; [exact Hin|].
            apply String.eqb_refl. }
          congruence.
      - intros [[k Hk] Hnot]. apply Hfound in Hk. split.
        + destruct (test_frameworks item); [contradiction | reflexivity].
        + destruct (existsb (String.eqb name) (test_frameworks item)) eqn:E;
            [|reflexivity].
          apply existsb_exists in E. destruct E as (k' & Hin & Heq).
          apply String.eqb_eq in Heq. subst k'. apply Hfound in Hin. contradiction. }
    rewrite !in_app_iff.
    destruct (skipped_for_framework (Some name) item) eqn:E.
    + split; [intros _; right; apply Hcond; reflexivity|].
      intros _. right. right. left. reflexivity.
    + split.
      * intros [H|[H|[]]]; [left; exact H|].
        destruct (skipped_for_e2e e2e_enabled item); [|contradiction].
        destruct H as [H|[]]. discriminate H.
      * intros [H|H]; [left; exact H|]. apply Hcond in H. discriminate.
  - destruct (collection_step_markers e2e_enabled None item) as [_ ->].
    destruct (collection_step_markers e2e_enabled (Some ""%string) item) as [_ ->].
    reflexivity.
  - destruct (collection_step_markers e2e_enabled None item) as [_ ->].
    cbn [skipped_for_framework]. rewrite app_nil_r. reflexivity.
Qed.

(** X18: with [--e2e] given and no [--framework], the hook leaves every
    collected test exactly as it was. *)
Theorem collection_without_filters (items : list Item) :
  pytest_collection_modifyitems true None items = items
  /\ pytest_collection_modifyitems true (Some ""%string) items = items.
Proof.
  unfold pytest_collection_modifyitems, collection_step.
  split; rewrite <- (map_id items) at 2; apply map_ext; intros item;
    rewrite andb_false_r; reflexivity.
Qed.

End CollectionFacts.

Section MockingFacts.
Import Plugin.
Context {PyModule : Type} (MagicMock : nat -> PyModule).
Local Open Scope list_scope.

Implicit Types (modules : list (string * PyModule)) (names : list string).

Lemma dict_find_pop_other modules k k' :
  k' <> k -> dict_find (dict_pop modules k) k' = dict_find modules k'.
Proof.
  intros Hne. induction modules as [|[k0 v0] rest IH]; simpl; [reflexivity|].
  destruct (String.eqb k k0) eqn:E; simpl.
  - apply String.eqb_eq in E. subst k0.
    apply String.eqb_neq in Hne. rewrite Hne. reflexivity.
  - rewrite IH. reflexivity.
Qed.

Lemma dict_find_pop_same modules k :
  NoDup (dict_keys modules) -> dict_find (dict_pop modules k) k = None.
Proof.
  induction modules as [|[k0 v0] rest IH]; simpl; intros Hnd; [reflexivity|].
  inversion Hnd as [|? ? Hnotin Hnd']; subst.
  destruct (String.eqb k k0) eqn:E; simpl.
  - apply String.eqb_eq in E. subst k0. apply dict_find_None. exact Hnotin.
  - rewrite E. apply IH. exact Hnd'.
Qed.

Lemma dict_keys_pop modules k k' :
  In k' (dict_keys (dict_pop modules k)) -> In k' (dict_keys modules).
Proof.
  induction modules as [|[k0 v0] rest IH]; simpl; [tauto|].
  destruct (String.eqb k k0); simpl; intuition.
Qed.

Lemma NoDup_dict_pop modules k :
  NoDup (dict_keys modules) -> NoDup (dict_keys (dict_pop modules k)).
Proof.
  induction modules as [|[k0 v0] rest IH]; simpl; intros Hnd; [constructor|].
  inversion Hnd as [|? ? Hnotin Hnd']; subst.
  destruct (String.eqb k k0); simpl; [exact Hnd'|].
  constructor; [|apply IH; exact Hnd'].
  intros Hin. apply Hnotin. eapply dict_keys_pop. exact Hin.
Qed.

Lemma NoDup_dict_set modules k (v : PyModule) :
  NoDup (dict_keys modules) -> NoDup (dict_keys (dict_set modules k v)).
Proof.
  induction modules as [|[k0 v0] rest IH]; simpl; intros Hnd.
  - constructor; [intros [] | constructor].
  - inversion Hnd as [|? ? Hnotin Hnd']; subst.
    destruct (String.eqb k k0) eqn:E; simpl; [exact Hnd|].
    constructor; [|apply IH; exact Hnd'].
    intros Hin. apply Hnotin. apply dict_find_None in Hnotin.
    assert (Hfind : dict_find (dict_set rest k v) k0 = None).
    { rewrite dict_find_set. rewrite String.eqb_sym, E. exact Hnotin. }
    apply dict_find_None in Hfind. contradiction.
Qed.

(** ** Before the [yield] *)

Lemma install_all names : forall (m : Mocking PyModule),
  NoDup names ->
  let after := fold_left (install MagicMock) names m in
  mocks_made after = mocks_made m + length names
  /\ (forall i name,
         nth_error names i = Some name ->
         dict_find (sys_modules after) name = Some (MagicMock (mocks_made m + i))
         /\ dict_find (mock_modules after) name
            = Some (MagicMock (mocks_made m + i))
         /\ dict_find (original_modules after) name
            = match dict_find (sys_modules m) name with
              | Some original => Some original
              | None => dict_find (original_modules m) name
              end)
  /\ (forall name,
         ~ In name names ->
         dict_find (sys_modules after) name = dict_find (sys_modules m) name
         /\ dict_find (mock_modules after) name = dict_find (mock_modules m) name
         /\ dict_find (original_modules after) name
            = dict_find (original_modules m) name).
Proof.
  induction names as [|a rest IH]; intros m Hnd; cbn zeta.
  - simpl. split; [lia|]. split; [intros [|i] name H; discriminate | auto].
  - inversion Hnd as [|? ? Hnotin Hnd']; subst.
    specialize (IH (install MagicMock m a) Hnd'). cbn zeta in IH.
    destruct IH as (Hmade & Hin & Hout).
    assert (Hsys : forall name,
               dict_find (sys_modules (install MagicMock m a)) name
               = if String.eqb name a then Some (MagicMock (mocks_made m))
                 else dict_find (sys_modules m) name).
    { intros name. unfold install. cbn [sys_modules].
      rewrite dict_find_set, String.eqb_refl. apply dict_find_set. }
    assert (Hmock : forall name,
               dict_find (mock_modules (install MagicMock m a)) name
               = if String.eqb name a then Some (MagicMock (mocks_made m))
                 else dict_find (mock_modules m) name).
    { intros name. unfold install. cbn [mock_modules]. apply dict_find_set. }
    assert (Horig : forall name,
               dict_find (original_modules (install MagicMock m a)) name
               = if String.eqb name a
                 then match dict_find (sys_modules m) a with
                      | Some original => Some original
                      | None => dict_find (original_modules m) a
                      end
                 else dict_find (original_modules m) name).
    { intros name. unfold install. cbn [original_modules].
      destruct (dict_find (sys_modules m) a) as [original|] eqn:E.
      - apply dict_find_set.
      - destruct (String.eqb name a) eqn:E'; [|reflexivity].
        apply String.eqb_eq in E'. subst. reflexivity. }
    simpl fold_left. split; [|split].
    + rewrite Hmade. unfold install. cbn [mocks_made]. simpl. lia.
    + intros [|i] name Hnth; simpl in Hnth.
      * inversion Hnth; subst name.
        destruct (Hout a Hnotin) as (H1 & H2 & H3).
        rewrite H1, H2, H3, Hsys, Hmock, Horig, String.eqb_refl, Nat.add_0_r.
        auto.
      * destruct (Hin i name Hnth) as (H1 & H2 & H3).
        assert (Hne : String.eqb name a = false).
        { apply String.eqb_neq. intros ->. apply Hnotin.
          eapply nth_error_In; exact Hnth. }
        rewrite H1, H2, H3, Hsys, Horig, Hne.
        unfold install at 1 2. cbn [mocks_made].
        replace (S (mocks_made m) + i) with (mocks_made m + S i) by lia. auto.
    + intros name Hnot.
      assert (Hne : String.eqb name a = false).
      { apply String.eqb_neq. intros ->. apply Hnot. left; reflexivity. }
      destruct (Hout name) as (H1 & H2 & H3); [intros H; apply Hnot; right; exact H|].
      rewrite H1, H2, H3, Hsys, Hmock, Horig, Hne. auto.
Qed.

(** ** After the [yield] *)

Lemma restore_find (originals : list (string * PyModule)) modules name k :
  NoDup (dict_keys modules) ->
  dict_find (restore originals modules name) k
  = if String.eqb k name then dict_find originals name else dict_find modules k.
Proof.
  intros Hnd. unfold restore.
  destruct (dict_find originals name) as [original|] eqn:E.
  - rewrite dict_find_set. reflexivity.
  - destruct (String.eqb k name) eqn:E'.
    + apply String.eqb_eq in E'. subst. apply dict_find_pop_same. exact Hnd.
    + apply dict_find_pop_other. apply String.eqb_neq. exact E'.
Qed.

Lemma restore_NoDup (originals : list (string * PyModule)) modules name :
  NoDup (dict_keys modules) -> NoDup (dict_keys (restore originals modules name)).
Proof.
  intros Hnd. unfold restore.
  destruct (dict_find originals name);
    [apply NoDup_dict_set | apply NoDup_dict_pop]; exact Hnd.
Qed.

Lemma teardown_all (originals : list (string * PyModule)) names : forall modules,
  NoDup (dict_keys modules) ->
  NoDup (dict_keys (mock_teardown names originals modules))
  /\ (forall name,
         In name names ->
         dict_find (mock_teardown names originals modules) name
         = dict_find originals name)
  /\ (forall name,
         ~ In name names ->
         dict_find (mock_teardown names originals modules) name
         = dict_find modules name).
Proof.
  unfold mock_teardown.
  induction names as [|a rest IH]; intros modules Hnd; simpl.
  - split; [exact Hnd|]. split; [intros name [] | reflexivity].
  - destruct (IH (restore originals modules a) (restore_NoDup _ _ _ Hnd))
      as (Hnd' & Hin & Hout).
    split; [exact Hnd'|]. split.
    + intros name Hname.
      destruct (in_dec string_dec name rest) as [Hrest|Hrest]; [auto|].
      destruct Hname as [->|Hname]; [|contradiction].
      rewrite (Hout name Hrest), restore_find by exact Hnd.
      rewrite String.eqb_refl. reflexivity.
    + intros name Hnot. rewrite Hout by (intros H; apply Hnot; right; exact H).
      rewrite restore_find by exact Hnd.
      assert (Hne : String.eqb name a = false).
      { apply String.eqb_neq. intros ->. apply Hnot. left; reflexivity. }
      rewrite Hne. reflexivity.
Qed.

Lemma install_NoDup names : forall (m : Mocking PyModule),
  NoDup (dict_keys (sys_modules m)) ->
  NoDup (dict_keys (sys_modules (fold_left (install MagicMock) names m))).
Proof.
  induction names as [|a rest IH]; intros m Hm; simpl; [exact Hm|].
  apply IH. unfold install. cbn [sys_modules].
  rewrite dict_find_set, String.eqb_refl. apply NoDup_dict_set. exact Hm.
Qed.

(** X19: while the test runs, every listed module name resolves in
    [sys.modules] to a mock of its own, the one the fixture yields under
    that name, and every other entry of [sys.modules] is as it was; the
    fixture makes one mock per name. *)
Theorem mock_setup_installs names modules (made : nat) :
  NoDup names ->
  let during := mock_setup MagicMock names modules made in
  mocks_made during = made + length names
  /\ (forall i name,
         nth_error names i = Some name ->
         dict_find (sys_modules during) name = Some (MagicMock (made + i))
         /\ dict_find (mock_modules during) name = Some (MagicMock (made + i)))
  /\ (forall name,
         ~ In name names ->
         dict_find (sys_modules during) name = dict_find modules name
         /\ dict_find (mock_modules during) name = None).
Proof.
  intros Hnd during.
  destruct (install_all names (mkMocking modules [] [] made) Hnd)
    as (Hmade & Hin & Hout).
  split; [exact Hmade|]. split.
  - intros i name Hnth. destruct (Hin i name Hnth) as (H1 & H2 & _). auto.
  - intros name Hnot. destruct (Hout name Hnot) as (H1 & H2 & _). auto.
Qed.

(** X20: after the fixture is torn down, every listed name holds in
    [sys.modules] the module it held before the fixture, or is absent if
    it was absent, whatever the test did to it meanwhile, and every other
    name holds what the test left there.  So a test that does not touch
    [sys.modules] gets it back as it was. *)
Theorem mock_fixture_restores names modules (made : nat) :
  NoDup names ->
  NoDup (dict_keys modules) ->
  let during := mock_setup MagicMock names modules made in
  (forall left_by_test,
      NoDup (dict_keys left_by_test) ->
      let restored := mock_teardown names (original_modules during) left_by_test in
      NoDup (dict_keys restored)
      /\ (forall name,
             In name names -> dict_find restored name = dict_find modules name)
      /\ (forall name,
             ~ In name names -> dict_find restored name = dict_find left_by_test name))
  /\ NoDup (dict_keys (sys_modules during))
  /\ (forall name,
         dict_find (mock_teardown names (original_modules during) (sys_modules during))
           name
         = dict_find modules name).
Proof.
  intros Hnd Hmods during.
  destruct (install_all names (mkMocking modules [] [] made) Hnd)
    as (_ & Hin & Hout).
  cbn [sys_modules original_modules] in Hin, Hout.
  assert (Horig : forall name,
             In name names ->
             dict_find (original_modules during) name = dict_find modules name).
  { intros name Hname. apply In_nth_error in Hname. destruct Hname as [i Hi].
    destruct (Hin i name Hi) as (_ & _ & H3). unfold during, mock_setup.
    rewrite H3. destruct (dict_find modules name); reflexivity. }
  assert (Hgeneral : forall left_by_test,
             NoDup (dict_keys left_by_test) ->
             let restored := mock_teardown names (original_modules during) left_by_test in
             NoDup (dict_keys restored)
             /\ (forall name,
                    In name names -> dict_find restored name = dict_find modules name)
             /\ (forall name,
                    ~ In name names ->
                    dict_find restored name = dict_find left_by_test name)).
  { intros left_by_test Hleft restored.
    destruct (teardown_all (original_modules during) names left_by_test Hleft)
      as (H1 & H2 & H3).
    split; [exact H1|]. split; [|exact H3].
    intros name Hname. unfold restored. rewrite H2, Horig by exact Hname.
    reflexivity. }
  assert (Hduring : NoDup (dict_keys (sys_modules during)))
    by (apply install_NoDup; exact Hmods).
  split; [exact Hgeneral|]. split; [exact Hduring|].
  intros name. destruct (Hgeneral (sys_modules during) Hduring) as (_ & H2 & H3).
  destruct (in_dec string_dec name names) as [Hname|Hname].
  - apply H2. exact Hname.
  - rewrite H3 by exact Hname. apply (Hout name Hname).
Qed.

End MockingFacts.

(** ** The configuration fixtures, handed to the CrewAI runner *)

Section FixtureFacts.
Import CrewAIRunner.
Context {LLM : Type} (get_llm : PyVal -> LLM).
Context (path_exists : string -> bool) (rglob : string -> string -> list string).
Context (read_text : string -> result string).
Local Open Scope list_scope.

(** X21: whatever dictionaries the agent and task fixtures hold,
    [simple_crew_config] builds: the merged task entry names
    [test_agent] even when the task fixture has an [agent] key of its
    own, and keeps the fixture's other keys; the crew has the one agent,
    the one task bound to it, no knowledge sources, and the sequential
    process; the file system is never asked. *)
Theorem simple_crew_config_builds (agent_cfg task_cfg : Dict)
    (st : State (Native LLM)) :
  crew_config st = Plugin.simple_crew_config agent_cfg task_cfg ->
  exists crew built task st',
    CrewAIRunner.build_crew get_llm path_exists rglob read_text st = (Ok crew, st')
    /\ agents crew = [built]
    /\ tasks crew = [task]
    /\ agent task = built
    /\ built = agent_of get_llm (length (objects st)) agent_cfg
    /\ description task = dict_get task_cfg "description" (VStr "")
    /\ expected_output task = dict_get task_cfg "expected_output" (VStr "")
    /\ knowledge_sources crew = None
    /\ process crew = sequential
    /\ objects st' = objects st ++ [NAgent built; NTask task; NCrew crew].
Proof.
  intros Hcfg.
  set (merged := dict_set task_cfg "agent" (VStr "test_agent")).
  assert (Hmerged : forall k,
             dict_get merged k (VStr "")
             = if String.eqb k "agent" then VStr "test_agent"
               else dict_get task_cfg k (VStr "")).
  { intros k. unfold dict_get, merged. rewrite dict_find_set.
    destruct (String.eqb k "agent"); reflexivity. }
  assert (Hagent : dict_get merged "agent" VNone = VStr "test_agent").
  { unfold dict_get, merged. rewrite dict_find_set. reflexivity. }
  pose proof (build_crew_built get_llm path_exists rglob read_text st
                [("test_agent", agent_cfg)] [("test_task", merged)] []) as H.
  rewrite Hcfg in H. specialize (H eq_refl eq_refl).
  assert (Hnd : NoDup (dict_keys [("test_agent", agent_cfg)]))
    by (repeat constructor; simpl; tauto).
  assert (Hres : forall task_name cfg,
             In (task_name, cfg) [("test_task", merged)] ->
             resolves [("test_agent", agent_cfg)] cfg).
  { intros task_name cfg [Heq|[]]. inversion Heq; subst.
    exists "test_agent"%string. repeat split; [exact Hagent | discriminate | left; reflexivity]. }
  assert (Hos : fails_only_with_OSError read_text
                  (scanned_files path_exists rglob []))
    by (intros f e []).
  specialize (H Hnd Hres eq_refl Hos). rewrite <- Hcfg in H.
  cbn [agents_from tasks_from sources_from scanned_files filter flat_map map snd
         length] in H.
  unfold agent_for in H. rewrite Hagent in H.
  cbn [String.eqb Ascii.eqb Bool.eqb dict_find] in H.
  eexists _, (agent_of get_llm (length (objects st)) agent_cfg),
    (task_of (length (objects st) + 1) merged
       (agent_of get_llm (length (objects st)) agent_cfg)), _.
  split; [exact H|].
  cbn [agents tasks knowledge_sources process crew_of dict_values map snd
         agent task_of description expected_output objects].
  rewrite !Hmerged. cbn [String.eqb Ascii.eqb Bool.eqb].
  repeat split. rewrite Hcfg. reflexivity.
Qed.

End FixtureFacts.

(** * The further theorems on the sample inputs *)

Section MoreRuns.
Import Samples MoreSamples.
Local Open Scope list_scope.

Abbreviation crewai_state config :=
  (mkState config [] : State (CrewAIRunner.Native unit)).
Abbreviation strands_state config :=
  (mkState config [] : State StrandsRunner.Native).



(** The one source of the directory [kb] once the undecodable file is
    gone: the missing path and the locked file are passed over. *)
Example clean_kb_sources :
  fst (CrewAIRunner._load_knowledge (LLM := unit) kb_exists clean_rglob kb_read_text
         (VList [VStr "missing"; VStr "kb"]) (crewai_state []))
  = Ok [CrewAIRunner.mkSource 0 ["kb/notes.md"]].
Proof. reflexivity. Qed.

Lemma load_knowledge_missing_paths_witness :
  CrewAIRunner._load_knowledge kb_exists kb_rglob kb_read_text
    (VList (map VStr ["missing"; "nowhere"])) (crewai_state [])
  = (Ok [], crewai_state []).
Proof.
  apply (load_knowledge_missing_paths (LLM := unit) kb_exists kb_rglob kb_read_text
           ["missing"; "nowhere"] (crewai_state [])).
  intros knowledge_path [<-|[<-|[]]]; reflexivity.
Defined.


Abbreviation build_kb :=
  (CrewAIRunner.build_crew no_llm kb_exists clean_rglob kb_read_text).



(** The build of [knowledge_crew] makes six objects, the crew last, and
    the crew holds the one source. *)
Example knowledge_crew_objects :
  match build_kb (crewai_state knowledge_crew) with
  | (Ok crew, st') =>
      length (objects st') = 6
      /\ CrewAIRunner.crew_id crew = 5
      /\ CrewAIRunner.knowledge_sources crew
         = Some [CrewAIRunner.mkSource 4 ["kb/notes.md"]]
  | _ => False
  end.
Proof. repeat split. Qed.



Lemma earlier_task_resolves name cfg :
  In (name, cfg) [("research_task", research_task_cfg)] ->
  CrewAIRunner.resolves agent_items cfg.
Proof.
  intros [H|[]]. inversion H; subst.
  exists "researcher"%string. repeat split; [discriminate | simpl; auto].
Defined.

Lemma build_crew_unhashable_agent_witness :
  CrewAIRunner.build_crew no_llm no_path no_files no_text
    (crewai_state listed_agent_crew)
  = (Raise TypeError,
     mkState listed_agent_crew
       ([] ++ map CrewAIRunner.NAgent
                (map snd (CrewAIRunner.agents_from no_llm 0 agent_items))
        ++ map CrewAIRunner.NTask
             (CrewAIRunner.tasks_from (0 + length agent_items)
                (CrewAIRunner.agents_dict no_llm 0 agent_items)
                [("research_task", research_task_cfg)]))).
Proof.
  exact (build_crew_unhashable_agent no_llm no_path no_files no_text
           (crewai_state listed_agent_crew) agent_items
           [("research_task", research_task_cfg)] [] "writing_task" listed_agent_cfg
           eq_refl eq_refl earlier_task_resolves eq_refl eq_refl).
Defined.

(** A list for [agents], and a string for [tasks]. *)
Example not_a_mapping_runs :
  CrewAIRunner.build_crew no_llm no_path no_files no_text
    (crewai_state [("agents", VList [VStr "researcher"])])
  = (Raise AttributeError, crewai_state [("agents", VList [VStr "researcher"])])
  /\ fst (CrewAIRunner.build_crew no_llm no_path no_files no_text
            (crewai_state [("agents", VDict (dicts agent_items));
                           ("tasks", VStr "research")]))
     = Raise AttributeError.
Proof. split; reflexivity. Qed.

Lemma prompt_reads_three_keys_witness :
  fst (StrandsRunner._build_system_prompt (strands_state two_agent_crew))
  = fst (StrandsRunner._build_system_prompt (strands_state hierarchical_crew))
  /\ snd (StrandsRunner._build_system_prompt (strands_state two_agent_crew))
     = strands_state two_agent_crew.
Proof.
  exact (prompt_reads_three_keys (strands_state two_agent_crew)
           (strands_state hierarchical_crew) eq_refl eq_refl eq_refl).
Defined.

Lemma unknown_agent_descriptions :
  StrandsRunner.string_descriptions unknown_agent_items.
Proof.
  repeat constructor; simpl; eexists; reflexivity.
Defined.

Lemma build_crew_single_agent_witness :
  exists built,
    StrandsRunner.build_crew (strands_state unknown_agent_crew)
    = (Ok built, mkState unknown_agent_crew ([] ++ [StrandsRunner.NAgent built]))
    /\ StrandsRunner.agent_id built = 0
    /\ StrandsRunner.tools built = []
    /\ fst (StrandsRunner._build_system_prompt (strands_state unknown_agent_crew))
       = Ok (StrandsRunner.system_prompt built)
    /\ StrandsRunner.system_prompt built
       = join nl (StrandsRunner.purpose_section unknown_agent_crew
                  ++ StrandsRunner.capabilities_section agent_items
                  ++ StrandsRunner.tasks_section unknown_agent_items).
Proof.
  exact (build_crew_single_agent (strands_state unknown_agent_crew)
           agent_items unknown_agent_items eq_refl eq_refl
           unknown_agent_descriptions).
Defined.

(** The same configuration under the two runners: the task that names an
    undeclared agent stops the CrewAI build and not the Strands one. *)
Example unknown_agent_under_both :
  fst (CrewAIRunner.build_crew no_llm no_path no_files no_text
         (crewai_state unknown_agent_crew))
  = Raise (ValueError "Task 'writing_task' has invalid agent: editor")
  /\ length (objects (snd (StrandsRunner.build_crew
                             (strands_state unknown_agent_crew)))) = 1.
Proof. split; reflexivity. Qed.

Lemma capability_blocks_witness :
  exists earlier later,
    StrandsRunner.prompt_parts (strands_state two_agent_crew)
    = (Ok (earlier ++ StrandsRunner.capabilities_section agent_items ++ later),
       strands_state two_agent_crew)
    /\ (agent_items <> [] ->
        StrandsRunner.capabilities_section agent_items
        = (nl ++ "# Your Capabilities")%string
            :: flat_map
                 (fun item =>
                    (nl ++ "## "
                     ++ py_str (dict_get (snd item) "role" (VStr (fst item))))%string
                    :: (if truthy (dict_get (snd item) "goal" (VStr ""))
                        then [("Goal: "
                               ++ py_str (dict_get (snd item) "goal" (VStr "")))%string]
                        else []))
                 agent_items)
    /\ forall agent_name agent_cfg,
        In (agent_name, agent_cfg) agent_items ->
        In (nl ++ "## " ++ py_str (dict_get agent_cfg "role" (VStr agent_name)))%string
           (StrandsRunner.capabilities_section agent_items)
        /\ (dict_find agent_cfg "role" = None ->
            In (nl ++ "## " ++ agent_name)%string
               (StrandsRunner.capabilities_section agent_items))
        /\ (truthy (dict_get agent_cfg "goal" (VStr "")) = true ->
            In ("Goal: " ++ py_str (dict_get agent_cfg "goal" (VStr "")))%string
               (StrandsRunner.capabilities_section agent_items)).
Proof.
  exact (capability_blocks (strands_state two_agent_crew) agent_items task_items
           eq_refl eq_refl sample_descriptions).
Defined.

(** An agent without a role is listed under its key. *)
Example nameless_role_block :
  fst (StrandsRunner._build_system_prompt
         (strands_state [("agents", VDict [("helper", VDict [])])]))
  = Ok (join nl [""; "# Your Capabilities"; ""; "## helper"])%string.
Proof. reflexivity. Qed.

Lemma empty_prompt_witness :
  StrandsRunner._build_system_prompt (strands_state [("agents", VNone)])
  = (Ok ""%string, strands_state [("agents", VNone)])
  /\ StrandsRunner.build_crew (strands_state [("agents", VNone)])
     = (Ok (StrandsRunner.mkAgent 0 "" []),
        mkState [("agents", VNone)]
          ([] ++ [StrandsRunner.NAgent (StrandsRunner.mkAgent 0 "" [])])).
Proof.
  exact (empty_prompt (strands_state [("agents", VNone)]) eq_refl eq_refl eq_refl).
Defined.

Lemma earlier_task_description :
  StrandsRunner.string_descriptions [("research_task", research_task_cfg)].
Proof.
  repeat constructor; simpl; eexists; reflexivity.
Defined.

Lemma unsliceable_description_witness :
  StrandsRunner._build_system_prompt (strands_state numbered_crew)
  = (Raise TypeError, strands_state numbered_crew)
  /\ StrandsRunner.build_crew (strands_state numbered_crew)
     = (Raise TypeError, strands_state numbered_crew).
Proof.
  apply (unsliceable_description (strands_state numbered_crew) agent_items
           [("research_task", research_task_cfg)] [] "writing_task" numbered_cfg).
  - reflexivity.
  - reflexivity.
  - exact earlier_task_description.
  - reflexivity.
  - intros text H. discriminate H.
  - intros l H. discriminate H.
Defined.

(** ** The plugin *)

Lemma framework_modules_NoDup : NoDup Plugin.FRAMEWORK_MODULES.
Proof.
  repeat constructor; simpl; intuition discriminate.
Defined.

Lemma loaded_modules_NoDup : NoDup (dict_keys loaded_modules).
Proof.
  repeat constructor; simpl; intuition discriminate.
Defined.

Lemma mock_setup_installs_witness :
  Plugin.mocks_made
    (Plugin.mock_setup numbered_mock Plugin.FRAMEWORK_MODULES loaded_modules 0)
  = 0 + length Plugin.FRAMEWORK_MODULES
  /\ (forall i name,
         nth_error Plugin.FRAMEWORK_MODULES i = Some name ->
         dict_find
           (Plugin.sys_modules
              (Plugin.mock_setup numbered_mock Plugin.FRAMEWORK_MODULES
                 loaded_modules 0)) name
         = Some (numbered_mock (0 + i))
         /\ dict_find
              (Plugin.mock_modules
                 (Plugin.mock_setup numbered_mock Plugin.FRAMEWORK_MODULES
                    loaded_modules 0)) name
            = Some (numbered_mock (0 + i)))
  /\ (forall name,
         ~ In name Plugin.FRAMEWORK_MODULES ->
         dict_find
           (Plugin.sys_modules
              (Plugin.mock_setup numbered_mock Plugin.FRAMEWORK_MODULES
                 loaded_modules 0)) name
         = dict_find loaded_modules name
         /\ dict_find
              (Plugin.mock_modules
                 (Plugin.mock_setup numbered_mock Plugin.FRAMEWORK_MODULES
                    loaded_modules 0)) name
            = None).
Proof.
  exact (mock_setup_installs numbered_mock Plugin.FRAMEWORK_MODULES loaded_modules 0
           framework_modules_NoDup).
Defined.

Lemma mock_fixture_restores_witness :
  (forall left_by_test,
      NoDup (dict_keys left_by_test) ->
      NoDup (dict_keys
               (Plugin.mock_teardown Plugin.FRAMEWORK_MODULES
                  (Plugin.original_modules
                     (Plugin.mock_setup numbered_mock Plugin.FRAMEWORK_MODULES
                        loaded_modules 0))
                  left_by_test))
      /\ (forall name,
             In name Plugin.FRAMEWORK_MODULES ->
             dict_find
               (Plugin.mock_teardown Plugin.FRAMEWORK_MODULES
                  (Plugin.original_modules
                     (Plugin.mock_setup numbered_mock Plugin.FRAMEWORK_MODULES
                        loaded_modules 0))
                  left_by_test) name
             = dict_find loaded_modules name)
      /\ (forall name,
             ~ In name Plugin.FRAMEWORK_MODULES ->
             dict_find
               (Plugin.mock_teardown Plugin.FRAMEWORK_MODULES
                  (Plugin.original_modules
                     (Plugin.mock_setup numbered_mock Plugin.FRAMEWORK_MODULES
                        loaded_modules 0))
                  left_by_test) name
             = dict_find left_by_test name))
  /\ NoDup (dict_keys
              (Plugin.sys_modules
                 (Plugin.mock_setup numbered_mock Plugin.FRAMEWORK_MODULES
                    loaded_modules 0)))
  /\ (forall name,
         dict_find
           (Plugin.mock_teardown Plugin.FRAMEWORK_MODULES
              (Plugin.original_modules
                 (Plugin.mock_setup numbered_mock Plugin.FRAMEWORK_MODULES
                    loaded_modules 0))
              (Plugin.sys_modules
                 (Plugin.mock_setup numbered_mock Plugin.FRAMEWORK_MODULES
                    loaded_modules 0))) name
         = dict_find loaded_modules name).
Proof.
  exact (mock_fixture_restores numbered_mock Plugin.FRAMEWORK_MODULES loaded_modules 0
           framework_modules_NoDup loaded_modules_NoDup).
Defined.

(** [mock_frameworks] on three loaded modules, and back: the two that
    were loaded are replaced in place, six mocks are added behind them,
    and the teardown gives the dictionary back as it was, order
    included.  The lists of the four fixtures name no module twice. *)
Example mock_frameworks_run :
  Plugin.sys_modules (Plugin.mock_frameworks numbered_mock loaded_modules 0)
  = [("os", 1); ("crewai", 100); ("strands", 107); ("crewai.knowledge", 101);
     ("crewai.knowledge.source", 102);
     ("crewai.knowledge.source.text_file_knowledge_source", 103);
     ("langgraph", 104); ("langgraph.prebuilt", 105); ("langchain_anthropic", 106)]
  /\ Plugin.original_modules (Plugin.mock_frameworks numbered_mock loaded_modules 0)
     = [("crewai", 2); ("strands", 3)]
  /\ Plugin.mock_teardown Plugin.FRAMEWORK_MODULES
       (Plugin.original_modules (Plugin.mock_frameworks numbered_mock loaded_modules 0))
       (Plugin.sys_modules (Plugin.mock_frameworks numbered_mock loaded_modules 0))
     = loaded_modules
  /\ Plugin.sys_modules (Plugin.mock_strands numbered_mock loaded_modules 0)
     = [("os", 1); ("crewai", 2); ("strands", 100)].
Proof. repeat split. Qed.

Example fixture_lists_NoDup :
  NoDup Plugin.crewai_modules /\ NoDup Plugin.langgraph_modules
  /\ NoDup Plugin.strands_modules.
Proof.
  repeat split; repeat constructor; simpl; intuition discriminate.
Qed.

(** The hook on three collected tests, with [--framework=strands] and
    without [--e2e]. *)
Example collection_run :
  map Plugin.own_markers
    (Plugin.pytest_collection_modifyitems false (Some "strands"%string)
       [Plugin.mkItem "test_unit" ["unit"] [];
        Plugin.mkItem "test_crewai_e2e" ["e2e"; "crewai"] [];
        Plugin.mkItem "test_strands_e2e" ["e2e"; "strands"] []])
  = [[];
     [Plugin.skip_e2e; Plugin.skip_framework (Some "strands"%string)];
     [Plugin.skip_e2e]]
  /\ Plugin.mark_reason (Plugin.skip_framework (Some "strands"%string))
     = "Test not for framework 'strands' (--framework filter)"%string.
Proof. split; reflexivity. Qed.

Lemma simple_crew_config_builds_witness :
  exists crew built task st',
    CrewAIRunner.build_crew no_llm no_path no_files no_text
      (crewai_state
         (Plugin.simple_crew_config Plugin.simple_agent_config
            Plugin.simple_task_config))
    = (Ok crew, st')
    /\ CrewAIRunner.agents crew = [built]
    /\ CrewAIRunner.tasks crew = [task]
    /\ CrewAIRunner.agent task = built
    /\ built = CrewAIRunner.agent_of no_llm 0 Plugin.simple_agent_config
    /\ CrewAIRunner.description task
       = dict_get Plugin.simple_task_config "description" (VStr "")
    /\ CrewAIRunner.expected_output task
       = dict_get Plugin.simple_task_config "expected_output" (VStr "")
    /\ CrewAIRunner.knowledge_sources crew = None
    /\ CrewAIRunner.process crew = CrewAIRunner.sequential
    /\ objects st'
       = [] ++ [CrewAIRunner.NAgent built; CrewAIRunner.NTask task;
                CrewAIRunner.NCrew crew].
Proof.
  exact (simple_crew_config_builds no_llm no_path no_files no_text
           Plugin.simple_agent_config Plugin.simple_task_config
           (crewai_state
              (Plugin.simple_crew_config Plugin.simple_agent_config
                 Plugin.simple_task_config))
           eq_refl).
Defined.

(** [multi_agent_crew_config] under the two runners: the tasks are built
    in the order of the mapping, each for its own agent, and the prompt
    names both roles. *)
Example multi_agent_crew_config_runs :
  match fst (CrewAIRunner.build_crew no_llm no_path no_files no_text
               (crewai_state Plugin.multi_agent_crew_config)) with
  | Ok crew =>
      map (fun task => (CrewAIRunner.description task,
                        CrewAIRunner.role (CrewAIRunner.agent task)))
        (CrewAIRunner.tasks crew)
      = [(VStr "Research the topic: Python programming", VStr "Researcher");
         (VStr "Write a brief summary based on the research", VStr "Writer")]
      /\ CrewAIRunner.knowledge_sources crew = None
  | Raise _ => False
  end
  /\ fst (StrandsRunner._build_system_prompt
            (strands_state Plugin.multi_agent_crew_config))
     = Ok (join nl
             ["# Your Purpose"; "A crew with multiple collaborating agents"; "";
              "# Your Capabilities"; ""; "## Researcher";
              "Goal: Gather and analyze information"; "";
              "## Writer"; "Goal: Write clear summaries"; "";
              "# Tasks You Can Perform"; "";
              "- research_task: Research the topic: Python programming..."; "";
              "- writing_task: Write a brief summary based on the research..."])%string.
Proof. repeat split. Qed.

End MoreRuns.
